(** * PDF Bot: the collaboration layer and the keyword search of [app.py]

    A shallow embedding of the Streamlit script [src/app.py]: the button
    handlers of the document viewer (page navigation, Save Annotation), of the
    chat tab (Send Message), the WebSocket callback [on_message], and the
    keyword search of the Advanced Search tab; further on, the text
    extraction, the user profile of the sidebar, the start of the listener
    and the summarization.

    Conventions.
    - Python [str] is [string] where a text is only stored, compared for
      equality, joined or trimmed. The keyword search compares characters
      without regard to case, which Python does on Unicode code points: the
      page texts, the search term and the lines the search shows are
      sequences of code points ([unicode]).
    - Python [int] is [Z], Python [float] is the primitive binary64 [float].
    - A Python [dict] with string keys is a [gmap string pyvalue].
    - [st.session_state] is a record of optional attributes ([None] = the
      attribute has not been set yet).
    - A handler is a computation in the monad [M]: it threads the [world]
      (session state, notices shown on the page, transport calls, clock) and
      either returns or leaves through a [signal] (a raised exception, or the
      rerun request of [st.rerun]).
    - Library functions whose code is not part of the repository
      ([json.loads], [json.dumps], [str] of a float) are the fields of the
      class [PyLib]; the part of [re] the search relies on is modelled in
      the module [re], with the engine's comparison of two characters under
      [re.IGNORECASE], which rests on the tables of the Unicode database, as
      the field of the class [CaseRule].
    - A message delivered by the relay is handled between two runs of the
      script; the interleaving of the websocket thread with a run in
      progress is not modelled. Rendering that changes no state (text areas,
      tabs, styling) is left out. *)

From Stdlib Require Import ZArith String Ascii List Lia DecimalString.
From Stdlib Require DecimalPos DecimalZ.
From Corelib Require Import PrimFloat.
From stdpp Require Import base tactics option list sorting gmap strings.

#[local] Set Warnings "-register-all".

(** ** Python values *)

Inductive pyvalue :=
| PyNone
| PyBool (b : bool)
| PyInt (z : Z)
| PyFloat (f : float)
| PyStr (s : string)
| PyList (l : list pyvalue)
| PyDict (d : gmap string pyvalue).

Abbreviation pydict := (gmap string pyvalue).

(** An instance of a subclass of [Exception]: its class name and [str(e)]. *)
Record exn := Exn { exn_class : string; exn_str : string }.

(** Ways of leaving a handler other than returning. [st.rerun()] stops the
    run with a script-control signal that [except Exception] does not see. *)
Inductive signal :=
| Raised (e : exn)
| RerunRequested.

(** [type(v).__name__] *)
Definition type_name (v : pyvalue) : string :=
  match v with
  | PyNone => "NoneType"
  | PyBool _ => "bool"
  | PyInt _ => "int"
  | PyFloat _ => "float"
  | PyStr _ => "str"
  | PyList _ => "list"
  | PyDict _ => "dict"
  end.

(** [d.get(key)]: the value, or [None] when the key is missing. *)
Definition dict_get (d : pydict) (key : string) : pyvalue :=
  default PyNone (d !! key).

(** [v == s] for a string constant [s]: only an equal [str] compares equal. *)
Definition py_eq_str (v : pyvalue) (s : string) : bool :=
  match v with
  | PyStr t => String.eqb t s
  | _ => false
  end.

(** ** Strings *)

(** A Unicode code point, and a text as the sequence of its code points. *)
Abbreviation codepoint := N.
Abbreviation unicode := (list codepoint).

(** [str.isspace] on one character (code points below 256). *)
Definition isspace (c : ascii) : bool :=
  let n := N_of_ascii c in
  ((9 <=? n) && (n <=? 13) || (28 <=? n) && (n <=? 31)
   || (n =? 32) || (n =? 133) || (n =? 160))%N.

Fixpoint lstrip (s : string) : string :=
  match s with
  | EmptyString => EmptyString
  | String c rest => if isspace c then lstrip rest else s
  end.

Fixpoint rstrip (s : string) : string :=
  match s with
  | EmptyString => EmptyString
  | String c rest =>
      match rstrip rest with
      | EmptyString => if isspace c then EmptyString else String c EmptyString
      | kept => String c kept
      end
  end.

(** [s.strip()] *)
Definition strip (s : string) : string := rstrip (lstrip s).

(** [bool(s)]: a string is true when it is not empty. *)
Definition str_bool (s : string) : bool :=
  match s with
  | EmptyString => false
  | String _ _ => true
  end.

(** [a != b] on strings. *)
Definition str_ne (a b : string) : bool := negb (String.eqb a b).

(** [str(n)] for an [int]. *)
Definition str_int (z : Z) : string := NilZero.string_of_int (Z.to_int z).

(** ** Library functions outside the repository *)

Class PyLib := {
  (** [str(x)] for a float, as an f-string formats it *)
  str_float : float -> string;
  (** [json.loads]: the decoded value, or the exception it raises *)
  json_loads : string -> exn + pyvalue;
  (** [json.dumps] *)
  json_dumps : pyvalue -> string;
}.

(** ** The world a handler runs in *)

Record session_state := Session {
  username : option string;
  current_page : option Z;
  annotations : option (gmap Z (list pydict));
  revision_history : option (gmap string (list pydict));
  collab_annotations : option (list pydict);
  collab_chat : option (list pydict);
}.

(** A fresh browser session: no attribute set. *)
Definition new_session : session_state := Session None None None None None None.

Definition set_username (v : string) (s : session_state) : session_state :=
  Session (Some v) (current_page s) (annotations s) (revision_history s)
          (collab_annotations s) (collab_chat s).
Definition set_current_page (v : Z) (s : session_state) : session_state :=
  Session (username s) (Some v) (annotations s) (revision_history s)
          (collab_annotations s) (collab_chat s).
Definition set_annotations (v : gmap Z (list pydict)) (s : session_state) : session_state :=
  Session (username s) (current_page s) (Some v) (revision_history s)
          (collab_annotations s) (collab_chat s).
Definition set_revision_history (v : gmap string (list pydict)) (s : session_state)
  : session_state :=
  Session (username s) (current_page s) (annotations s) (Some v)
          (collab_annotations s) (collab_chat s).
Definition set_collab_annotations (v : list pydict) (s : session_state) : session_state :=
  Session (username s) (current_page s) (annotations s) (revision_history s)
          (Some v) (collab_chat s).
Definition set_collab_chat (v : list pydict) (s : session_state) : session_state :=
  Session (username s) (current_page s) (annotations s) (revision_history s)
          (collab_annotations s) (Some v).

(** What the page shows: [st.success], [st.warning], [st.error], [st.info],
    [st.markdown]. *)
Inductive notice :=
| St_success (text : string)
| St_warning (text : string)
| St_error (text : string)
| St_info (text : string)
| St_markdown (text : unicode).

(** The three calls the script makes on the websocket client. *)
Inductive ws_call :=
| Ws_create_connection
| Ws_send (payload : string)
| Ws_close.

(** One call on the relay and the exception it raised, if any. *)
Record wire_event := Wire { ws_op : ws_call; ws_raised : option exn }.

(** How the relay answers each call: [None] = the call succeeds. *)
Record transport := Transport {
  connect_raises : option exn;
  send_raises : string -> option exn;
  close_raises : option exn;
}.

Record world := World {
  session : session_state;
  screen : list notice;
  wire : list wire_event;
  clock : nat -> float;   (* what the n-th call of time.time() returns *)
  ticks : nat;            (* calls of time.time() made so far *)
}.

Definition with_session (s : session_state) (w : world) : world :=
  World s (screen w) (wire w) (clock w) (ticks w).

(** ** The handler monad *)

Definition M (A : Type) : Type := world -> world * (signal + A).

#[export] Instance M_ret : MRet M := fun A x w => (w, inr x).

#[export] Instance M_bind : MBind M := fun A B f m w =>
  match m w with
  | (w', inr x) => f x w'
  | (w', inl sg) => (w', inl sg)
  end.

Definition raise {A} (e : exn) : M A := fun w => (w, inl (Raised e)).

(** [try: body / except Exception as e: handler e]. The effects of [body] up
    to the exception stay; a rerun request passes through. *)
Definition try_except {A} (body : M A) (handler : exn -> M A) : M A := fun w =>
  match body w with
  | (w', inl (Raised e)) => handler e w'
  | other => other
  end.

Definition lift_result {A} (r : exn + A) : M A :=
  match r with
  | inl e => raise e
  | inr x => mret x
  end.

Definition st_notice (n : notice) : M unit := fun w =>
  (World (session w) (screen w ++ [n]) (wire w) (clock w) (ticks w), inr ()).

Definition st_success (text : string) : M unit := st_notice (St_success text).
Definition st_warning (text : string) : M unit := st_notice (St_warning text).
Definition st_error (text : string) : M unit := st_notice (St_error text).
Definition st_info (text : string) : M unit := st_notice (St_info text).

(** [st.rerun()]: the run stops here and a new one is requested. (Called from
    the websocket thread the library may instead return; no statement below
    depends on which.) *)
Definition st_rerun {A} : M A := fun w => (w, inl RerunRequested).

(** [time.time()] *)
Definition time_time : M float := fun w =>
  (World (session w) (screen w) (wire w) (clock w) (S (ticks w)),
   inr (clock w (ticks w))).

(** [name in st.session_state] *)
Definition state_has {A} (attr : session_state -> option A) : M bool := fun w =>
  (w, inr (bool_decide (is_Some (attr (session w))))).

(** [st.session_state.name]; a missing attribute raises [AttributeError]. *)
Definition state_get {A} (name : string) (attr : session_state -> option A) : M A :=
  fun w =>
    match attr (session w) with
    | Some v => (w, inr v)
    | None =>
        (w, inl (Raised (Exn "AttributeError"
                             ("st.session_state has no attribute " +:+ name))))
    end.

(** [st.session_state.name = v] *)
Definition state_set (upd : session_state -> session_state) : M unit := fun w =>
  (with_session (upd (session w)) w, inr ()).

(** Reading a variable of the script that may not have been assigned. *)
Definition load_name {A} (name : string) (binding : option A) : M A :=
  match binding with
  | Some v => mret v
  | None => raise (Exn "NameError" ("name '" +:+ name +:+ "' is not defined"))
  end.

(** [d[key]] on a dict keyed by page index. *)
Definition page_getitem {A} (d : gmap Z A) (key : Z) : M A :=
  match d !! key with
  | Some v => mret v
  | None => raise (Exn "KeyError" (str_int key))
  end.

(** The receiver of [data.get(...)]: only a dict has the method. *)
Definition get_method (data : pyvalue) : M pydict :=
  match data with
  | PyDict d => mret d
  | other =>
      raise (Exn "AttributeError"
                 ("'" +:+ type_name other +:+ "' object has no attribute 'get'"))
  end.

(** [if not cond: body] *)
Definition unless (cond : bool) (body : M unit) : M unit :=
  if cond then mret () else body.

(** One call on the websocket client, logged with its outcome. *)
Definition ws (relay : transport) (call : ws_call) : M unit := fun w =>
  let answer := match call with
                | Ws_create_connection => connect_raises relay
                | Ws_send payload => send_raises relay payload
                | Ws_close => close_raises relay
                end in
  (World (session w) (screen w) (wire w ++ [Wire call answer]) (clock w) (ticks w),
   match answer with
   | Some e => inl (Raised e)
   | None => inr ()
   end).

(** ** The script's handlers *)

Section handlers.
Context `{PyLib}.

(** Sidebar, lines 194-195: the username defaults to the empty string. *)
Definition sidebar_init : M unit :=
  has ← state_has username;
  unless has (state_set (set_username "")).

(** Document tab, lines 318-325. *)
Definition tab1_init : M unit :=
  has ← state_has current_page;
  unless has (state_set (set_current_page 0));;
  has ← state_has annotations;
  unless has (state_set (set_annotations ∅));;
  has ← state_has revision_history;
  unless has (state_set (set_revision_history ∅));;
  has ← state_has collab_annotations;
  unless has (state_set (set_collab_annotations [])).

(** Chat tab, lines 511-512. *)
Definition tab5_init : M unit :=
  has ← state_has collab_chat;
  unless has (state_set (set_collab_chat [])).

(** Lines 330-332. *)
Definition previous_page_button (clicked : bool) : M unit :=
  if clicked then
    cur ← state_get "current_page" current_page;
    if (0 <? cur)%Z then state_set (set_current_page (cur - 1)) else mret ()
  else mret ().

(** Lines 336-338. *)
Definition next_page_button (pdf_pages : list string) (clicked : bool) : M unit :=
  if clicked then
    cur ← state_get "current_page" current_page;
    if (cur <? Z.of_nat (length pdf_pages) - 1)%Z
    then state_set (set_current_page (cur + 1))
    else mret ()
  else mret ().

(** Lines 373-375 and 537-539: connect, send the serialized event, close. *)
Definition publish (relay : transport) (event : pydict) : M unit :=
  ws relay Ws_create_connection;;
  ws relay (Ws_send (json_dumps (PyDict event)));;
  ws relay Ws_close.

(** The f-string of line 354, with the clock reading it formats. *)
Definition annotation_id (page_index : Z) (t_id : float) : string :=
  str_int page_index +:+ "_" +:+ str_float t_id.

(** The dict literal of lines 353-361. [time.time()] is called once for the
    id and once more for the timestamp. *)
Definition annotation_event (page_index : Z) (t_id t_stamp : float)
    (selected_text annotation_text user : string) : pydict :=
  list_to_map
    [("id", PyStr (annotation_id page_index t_id));
     ("page", PyInt (page_index + 1));
     ("selected_text", PyStr selected_text);
     ("annotation", PyStr annotation_text);
     ("timestamp", PyFloat t_stamp);
     ("user", PyStr user);
     ("type", PyStr "annotation")].

(** Save Annotation, lines 349-379. *)
Definition save_annotation_button (clicked : bool)
    (selected_text annotation_text : string) (relay : transport) : M unit :=
  if clicked then
    if str_ne (strip selected_text) "" && str_ne (strip annotation_text) "" then
      page_index ← state_get "current_page" current_page;
      t_id ← time_time;
      t_stamp ← time_time;
      user ← state_get "username" username;
      let annotation_data :=
        annotation_event page_index t_id t_stamp selected_text annotation_text user in
      anns ← state_get "annotations" annotations;
      unless (bool_decide (is_Some (anns !! page_index)))
        (state_set (set_annotations (<[page_index := []]> anns)));;
      anns ← state_get "annotations" annotations;
      entries ← page_getitem anns page_index;
      state_set (set_annotations (<[page_index := entries ++ [annotation_data]]> anns));;
      st_success "Annotation saved locally!";;
      history ← state_get "revision_history" revision_history;
      (* annotation_data["id"] is the string built above; .copy() of a dict
         of immutable values is an equal dict *)
      state_set (set_revision_history
                   (<[annotation_id page_index t_id := [annotation_data]]> history));;
      try_except (publish relay annotation_data)
        (fun e => st_error ("Failed to send annotation to collaboration server: "
                            +:+ exn_str e))
    else st_warning "Please enter both the selected text and your annotation."
  else mret ().

(** The dict literal of lines 527-532. *)
Definition chat_event (t : float) (user chat_message : string) : pydict :=
  list_to_map
    [("type", PyStr "chat");
     ("timestamp", PyFloat t);
     ("user", PyStr user);
     ("message", PyStr (strip chat_message))].

(** Send Message, lines 525-544. Only the assignment of [chat_data] is under
    [if chat_message.strip():]; the append, the publish and the rerun are
    indented one level less and run whenever the button was clicked, and the
    [else] belongs to [if st.button(...)]. [chat_data] is a variable of the
    script, unbound at the start of every run. *)
Definition send_message_button (clicked : bool) (chat_message : string)
    (relay : transport) : M unit :=
  if clicked then
    chat_data ← (if str_bool (strip chat_message) then
                   t ← time_time;
                   user ← state_get "username" username;
                   mret (Some (chat_event t user chat_message))
                 else mret None);
    chat ← state_get "collab_chat" collab_chat;
    event ← load_name "chat_data" chat_data;
    state_set (set_collab_chat (chat ++ [event]));;
    try_except (publish relay event)
      (fun e => st_error ("Failed to send chat message to collaboration server: "
                          +:+ exn_str e));;
    st_rerun
  else st_warning "Please enter a message.".

(** The websocket callback, lines 138-153. *)
Definition on_message (message : string) : M unit :=
  try_except
    (data ← lift_result (json_loads message);
     d ← get_method data;
     (if py_eq_str (dict_get d "type") "annotation" then
        has ← state_has collab_annotations;
        unless has (state_set (set_collab_annotations []));;
        received ← state_get "collab_annotations" collab_annotations;
        state_set (set_collab_annotations (received ++ [d]))
      else if py_eq_str (dict_get d "type") "chat" then
        has ← state_has collab_chat;
        unless has (state_set (set_collab_chat []));;
        received ← state_get "collab_chat" collab_chat;
        state_set (set_collab_chat (received ++ [d]))
      else mret ());;
     st_rerun)
    (fun e => st_error ("Error processing collaborative message: " +:+ exn_str e)).

(** The other two websocket callbacks, lines 156-160. *)
Definition on_error (error : string) : M unit :=
  st_error ("WebSocket error: " +:+ error).

Definition on_close : M unit := st_info "WebSocket connection closed.".

End handlers.

(** ** Runs of the script

    One user event (a button click) or one message delivered by the relay.
    A click reruns the script: the initialisation blocks that precede a
    handler in the file run before it. *)

Inductive action :=
| Previous_page
| Next_page
| Save_annotation (selected_text annotation_text : string) (relay : transport)
| Send_message (chat_message : string) (relay : transport)
| Relay_message (message : string).

Section runs.
Context `{PyLib}.
Variable pdf_pages : list string.

Definition handle (a : action) : M unit :=
  match a with
  | Previous_page =>
      sidebar_init;; tab1_init;; previous_page_button true
  | Next_page =>
      sidebar_init;; tab1_init;; next_page_button pdf_pages true
  | Save_annotation selected_text annotation_text relay =>
      sidebar_init;; tab1_init;;
      save_annotation_button true selected_text annotation_text relay
  | Send_message chat_message relay =>
      sidebar_init;; tab1_init;; tab5_init;;
      send_message_button true chat_message relay
  | Relay_message message => on_message message
  end.

(** The world after one action, however the handler was left. *)
Definition step (a : action) (w : world) : world := fst (handle a w).

Fixpoint run (acts : list action) (w : world) : world :=
  match acts with
  | [] => w
  | a :: rest => run rest (step a w)
  end.

End runs.

(** ** Observations used in the statements *)

(** The page the viewer is on; a session that has not set it yet starts at 0. *)
Definition page_of (w : world) : Z := default 0%Z (current_page (session w)).

(** [localAnnotations[page]], empty when the page has no entry. *)
Definition annotations_at (w : world) (page : Z) : list pydict :=
  default [] (annotations (session w) ≫= (fun d => d !! page)).

(** [revisionHistory[id]] *)
Definition history_at (w : world) (id : string) : option (list pydict) :=
  revision_history (session w) ≫= (fun d => d !! id).

(** [remoteChat] and [remoteAnnotations], empty before their first use. *)
Definition remote_chat (w : world) : list pydict :=
  default [] (collab_chat (session w)).
Definition remote_annotations (w : world) : list pydict :=
  default [] (collab_annotations (session w)).

(** The [type] discriminator of a decoded relay message ([None] when the
    message has none). *)
Definition discriminator (data : pyvalue) : pyvalue :=
  match data with
  | PyDict d => dict_get d "type"
  | _ => PyNone
  end.

(** The user name the handlers read, after the sidebar default. *)
Definition user_of (w : world) : string := default "" (username (session w)).

(** Both fields of the annotation form pass the test of line 350. *)
Definition valid_annotation_input (selected_text annotation_text : string) : bool :=
  str_ne (strip selected_text) "" && str_ne (strip annotation_text) "".

Section observations.
Context `{PyLib}.

(** The event a valid Save Annotation click builds in world [w]. *)
Definition saved_event (w : world) (selected_text annotation_text : string) : pydict :=
  annotation_event (page_of w) (clock w (ticks w)) (clock w (S (ticks w)))
                   selected_text annotation_text (user_of w).

(** The id of that event. *)
Definition saved_id (w : world) : string :=
  annotation_id (page_of w) (clock w (ticks w)).

(** The action is a Save Annotation click that passes validation while the
    viewer is on [page]. *)
Definition creates_on (a : action) (w : world) (page : Z) : bool :=
  match a with
  | Save_annotation selected_text annotation_text _ =>
      valid_annotation_input selected_text annotation_text
      && bool_decide (page = page_of w)
  | _ => false
  end.

(** What an action adds to the annotations of [page]. *)
Definition created (a : action) (w : world) (page : Z) : list pydict :=
  match a with
  | Save_annotation selected_text annotation_text _ =>
      if creates_on a w page
      then [saved_event w selected_text annotation_text]
      else []
  | _ => []
  end.

(** The number of successful creations on [page] during a run. *)
Fixpoint creations (pdf_pages : list string) (page : Z) (acts : list action)
    (w : world) : nat :=
  match acts with
  | [] => 0
  | a :: rest =>
      (if creates_on a w page then 1 else 0)
      + creations pdf_pages page rest (step pdf_pages a w)
  end.

End observations.

(** [0 <= index < pageCount] *)
Definition in_range (pdf_pages : list string) (index : Z) : Prop :=
  (0 <= index < Z.of_nat (length pdf_pages))%Z.

(** Every stored annotation has an id whose revision history is one snapshot
    of an annotation stored under that id. *)
Definition history_seeded (w : world) : Prop :=
  forall page a, a ∈ annotations_at w page ->
    exists id rev,
      a !! "id" = Some (PyStr id) /\
      history_at w id = Some [rev] /\
      rev !! "id" = Some (PyStr id) /\
      exists page', rev ∈ annotations_at w page'.

(** The session after the initialisation blocks of the sidebar and of the
    document and chat tabs. *)
Definition sidebar_session (s : session_state) : session_state :=
  Session (Some (default "" (username s))) (current_page s) (annotations s)
          (revision_history s) (collab_annotations s) (collab_chat s).
Definition tab1_session (s : session_state) : session_state :=
  Session (username s) (Some (default 0%Z (current_page s)))
          (Some (default ∅ (annotations s))) (Some (default ∅ (revision_history s)))
          (Some (default [] (collab_annotations s))) (collab_chat s).
Definition tab5_session (s : session_state) : session_state :=
  Session (username s) (current_page s) (annotations s) (revision_history s)
          (collab_annotations s) (Some (default [] (collab_chat s))).

(** What one publish attempt does on the relay: the calls made, in order,
    and the exception that ended the attempt, if any. *)
Definition relay_calls (relay : transport) (payload : string) : list wire_event :=
  match connect_raises relay with
  | Some e => [Wire Ws_create_connection (Some e)]
  | None =>
      Wire Ws_create_connection None ::
      match send_raises relay payload with
      | Some e => [Wire (Ws_send payload) (Some e)]
      | None => [Wire (Ws_send payload) None; Wire Ws_close (close_raises relay)]
      end
  end.

Definition relay_failure (relay : transport) (payload : string) : option exn :=
  match connect_raises relay with
  | Some e => Some e
  | None =>
      match send_raises relay payload with
      | Some e => Some e
      | None => close_raises relay
      end
  end.

(** A call on the relay raised. *)
Definition call_raised (ev : wire_event) : Prop := is_Some (ws_raised ev).

(** The world with one more notice on the page. *)
Definition noticed (n : notice) (w : world) : world :=
  World (session w) (screen w ++ [n]) (wire w) (clock w) (ticks w).


(** ** Keyword search (Advanced Search tab, lines 412-443) *)

(** Strings as character lists, for scanning. *)
Definition chars (s : string) : list ascii := list_ascii_of_string s.
Definition text_of (l : list ascii) : string := string_of_list_ascii l.

(** The code points of a string literal of the script. *)
Definition codes (s : string) : unicode := N_of_ascii <$> chars s.

(** Methods of [str] on Unicode text. *)
Module str.

(** [c.isspace()]: the white space of the Unicode database, which is also
    what [strip] removes. *)
Definition isspace (c : codepoint) : bool :=
  ((9 <=? c) && (c <=? 13) || (28 <=? c) && (c <=? 32)
   || (c =? 133) || (c =? 160) || (c =? 5760)
   || (8192 <=? c) && (c <=? 8202)
   || (c =? 8232) || (c =? 8233) || (c =? 8239) || (c =? 8287)
   || (c =? 12288))%N.

Fixpoint lstrip (s : unicode) : unicode :=
  match s with
  | [] => []
  | c :: rest => if isspace c then lstrip rest else s
  end.

Fixpoint rstrip (s : unicode) : unicode :=
  match s with
  | [] => []
  | c :: rest =>
      match rstrip rest with
      | [] => if isspace c then [] else [c]
      | kept => c :: kept
      end
  end.

(** [s.strip()] *)
Definition strip (s : unicode) : unicode := rstrip (lstrip s).

(** [bool(s)]: a text is true when it is not empty. *)
Definition nonempty (s : unicode) : bool :=
  match s with
  | [] => false
  | _ :: _ => true
  end.

End str.

(** The regex engine's test of one subject character against one literal
    character of a pattern compiled with [re.IGNORECASE]:
    [literal_ignore pc c] says whether the literal [pc] accepts the subject
    character [c]. The engine decides it from the case mappings of the
    Unicode database and a table of further equivalences of its own, which
    are not part of the repository. *)
Class CaseRule := {
  literal_ignore : codepoint -> codepoint -> bool;
}.

(** The part of Python's [re] module the search uses: patterns that denote a
    plain sequence of characters. A pattern with an operator in it is outside
    this fragment and [compile] answers [re.error] for it; [escape] never
    produces one. *)
Module re.

Definition backslash : codepoint := 92%N.

(** The characters [re.escape] puts a backslash before:
    [()[]{}?*+-|^$\.&~#], the space, and tab, newline, return, vertical tab,
    form feed. *)
Definition special_chars : unicode :=
  codes "()[]{}?*+-|^$\.&~# " ++ [9; 10; 13; 11; 12]%N.

Definition is_special (c : codepoint) : bool := existsb (N.eqb c) special_chars.

(** [re.escape(pattern)] *)
Definition escape (pattern : unicode) : unicode :=
  flat_map (fun c => if is_special c then [backslash; c] else [c]) pattern.

(** The characters the pattern parser reads as operators when they are not
    escaped: [.\[{()*+?^$|]. *)
Definition operator_chars : unicode := codes ".\[{()*+?^$|".

Definition is_operator (c : codepoint) : bool := existsb (N.eqb c) operator_chars.

(** ASCII letters and digits: after a backslash they name a class, a
    back-reference or a control character, or are a bad escape. *)
Definition is_alnum (c : codepoint) : bool :=
  ((48 <=? c) && (c <=? 57) || (65 <=? c) && (c <=? 90)
   || (97 <=? c) && (c <=? 122))%N.

(** The pattern parser on the literal fragment: the characters the pattern
    matches, in order, or [None] outside the fragment. *)
Fixpoint parse (pattern : unicode) : option unicode :=
  match pattern with
  | [] => Some []
  | c :: rest =>
      if (c =? backslash)%N then
        match rest with
        | [] => None
        | e :: rest' =>
            if is_alnum e then None else cons e <$> parse rest'
        end
      else if is_operator c then None
      else cons c <$> parse rest
  end.

(** A compiled pattern. *)
Record pattern := Pattern { literals : unicode; ignorecase : bool }.

(** [re.compile(pattern, re.IGNORECASE)] when [flag] is set. *)
Definition compile (source : unicode) (flag : bool) : exn + pattern :=
  match parse source with
  | Some lits => inr (Pattern lits flag)
  | None => inl (Exn "error" "pattern outside the literal fragment")
  end.

Section engine.
Context `{CaseRule}.

(** One pattern character against one subject character. *)
Definition char_matches (p : pattern) (pc c : codepoint) : bool :=
  if ignorecase p then literal_ignore pc c else (c =? pc)%N.

(** The pattern matches at the start of [subject]. *)
Fixpoint match_here (p : pattern) (lits subject : unicode) : bool :=
  match lits, subject with
  | [], _ => true
  | _ :: _, [] => false
  | pc :: lits', c :: subject' =>
      char_matches p pc c && match_here p lits' subject'
  end.

(** The scan of [finditer] for a pattern that is not empty: left to right,
    a match found at [pos] is reported and the scan resumes at its end;
    [skip] counts the characters of the last match still to pass. *)
Fixpoint scan (p : pattern) (subject : unicode) (pos skip : nat)
  : list (nat * nat) :=
  match subject with
  | [] => []
  | _ :: rest =>
      match skip with
      | S k => scan p rest (S pos) k
      | O =>
          if match_here p (literals p) subject
          then (pos, pos + length (literals p))
                 :: scan p rest (S pos) (length (literals p) - 1)
          else scan p rest (S pos) 0
      end
  end.

(** [pattern.finditer(subject)]: the spans [(m.start(), m.end())] of the
    matches, in order. The empty pattern matches once at every position. *)
Definition finditer (p : pattern) (subject : unicode) : list (nat * nat) :=
  match literals p with
  | [] => (fun i => (i, i)) <$> seq 0 (S (length subject))
  | _ :: _ => scan p subject 0 0
  end.

(** The replacement scan of [pattern.sub(template, subject)] for a pattern
    that is not empty and the template [before\g<0>after]: every match is
    wrapped, the text between matches is copied. *)
Fixpoint wrap_scan (p : pattern) (before after : unicode)
    (subject : unicode) (skip : nat) : unicode :=
  match subject with
  | [] => []
  | c :: rest =>
      match skip with
      | S k => wrap_scan p before after rest k
      | O =>
          if match_here p (literals p) subject
          then before ++ take (length (literals p)) subject ++ after
               ++ wrap_scan p before after rest (length (literals p) - 1)
          else c :: wrap_scan p before after rest 0
      end
  end.

(** [pattern.sub(before + "\g<0>" + after, subject)]; the empty pattern
    inserts [before after] at every position. *)
Definition sub_wrap (p : pattern) (before after : unicode) (subject : unicode)
  : unicode :=
  match literals p with
  | [] => flat_map (fun c => before ++ after ++ [c]) subject ++ before ++ after
  | _ :: _ => wrap_scan p before after subject 0
  end.

End engine.

End re.

(** The double quote, for the HTML of the highlight. *)
Definition dquote : string := String "034" "".

Definition span_open : unicode :=
  codes ("<span class=" +:+ dquote +:+ "highlight" +:+ dquote +:+ ">").
Definition span_close : unicode := codes "</span>".

(** [text[i:j]] for [0 <= i] and [0 <= j]. *)
Definition slice (text : unicode) (i j : Z) : unicode :=
  take (Z.to_nat j - Z.to_nat i) (drop (Z.to_nat i) text).

Section search.
Context `{CaseRule}.

(** The body of the inner loop, lines 418-424: one match of the pattern on
    page [page_num] (counted from 0) becomes the pair of the page number
    (from 1) and its highlighted context. *)
Definition match_entry (p : re.pattern) (page_num : nat) (text : unicode)
    (span : nat * nat) : nat * unicode :=
  let start_context := Z.max 0 (Z.of_nat (fst span) - 100) in
  let end_context :=
    Z.min (Z.of_nat (length text)) (Z.of_nat (snd span) + 100) in
  let context := slice text start_context end_context in
  let highlighted := re.sub_wrap p span_open span_close context in
  (page_num + 1, highlighted).

(** The two loops of lines 416-424 over [enumerate(pdf_pages)], from page
    [page_num] on. *)
Fixpoint collect_matches (p : re.pattern) (pdf_pages : list unicode)
    (page_num : nat) : list (nat * unicode) :=
  match pdf_pages with
  | [] => []
  | text :: rest =>
      (match_entry p page_num text <$> re.finditer p text)
      ++ collect_matches p rest (S page_num)
  end.

(** [st.markdown] of one match, line 431. *)
Definition match_line (entry : nat * unicode) : notice :=
  St_markdown (codes ("**Page " +:+ str_int (Z.of_nat (fst entry)) +:+ ":** ")
               ++ snd entry).

(** The loop of lines 429-431. *)
Fixpoint show_matches (matches : list (nat * unicode)) : M unit :=
  match matches with
  | [] => mret ()
  | entry :: rest => st_notice (match_line entry);; show_matches rest
  end.

(** The search tab, lines 412-443, without the annotation boxes under each
    match (they change nothing until the user ticks one). *)
Definition search_tab (search_term : unicode) (pdf_pages : list unicode) : M unit :=
  if str.nonempty (str.strip search_term) then
    pattern ← lift_result (re.compile (re.escape search_term) true);
    let matches := collect_matches pattern pdf_pages 0 in
    match matches with
    | _ :: _ =>
        st_success ("Found " +:+ str_int (Z.of_nat (length matches)) +:+ " match(es):");;
        show_matches matches
    | [] => st_warning "No matches found in the document."
    end
  else mret ().

(** *** The claim's side: occurrences of a term in a text

    Written from the words of the claim. The term occurs at a place of a
    text when the characters there are the term's, letter case aside; the
    occurrences of a text are counted as Python counts ([str.count]): from
    the left, the next one sought from the end of the one before. *)

(** The character [c] of a text is the character [pc] of the term, letter
    case aside. *)
Definition same_letter (pc c : codepoint) : Prop := literal_ignore pc c = true.

#[export] Instance same_letter_dec : RelDecision same_letter :=
  fun pc c => decide (literal_ignore pc c = true).

(** Two texts that are the same character by character, letter case aside;
    the first is the one sought. *)
Definition same_letters (term stretch : unicode) : Prop :=
  Forall2 same_letter term stretch.

#[export] Instance same_letters_dec : RelDecision same_letters :=
  @Forall2_dec _ _ same_letter same_letter_dec.

(** The term occurs in the text at position [i]. *)
Definition occurs_at (term text : unicode) (i : nat) : Prop :=
  same_letters term (take (length term) (drop i text)).

#[export] Instance occurs_at_dec term text i : Decision (occurs_at term text i) :=
  same_letters_dec term (take (length term) (drop i text)).

(** Occurrences of a non-empty [term] in [text]; [skip] characters belong
    to the occurrence just counted. *)
Fixpoint count_from (term text : unicode) (skip : nat) : nat :=
  match text with
  | [] => 0
  | _ :: rest =>
      match skip with
      | S k => count_from term rest k
      | O =>
          if bool_decide (occurs_at term text 0)
          then S (count_from term rest (length term - 1))
          else count_from term rest 0
      end
  end.

(** The case-insensitive occurrences of the literal [term] in [text]; the
    empty term occurs once at every position. *)
Definition occurrences (term text : unicode) : nat :=
  match term with
  | [] => S (length text)
  | _ :: _ => count_from term text 0
  end.

(** The page numbers the claim expects, in page order: page [k+1] once per
    occurrence on it. *)
Fixpoint expected_pages (term : unicode) (pdf_pages : list unicode) (page_num : nat)
  : list nat :=
  match pdf_pages with
  | [] => []
  | text :: rest =>
      replicate (occurrences term text) (page_num + 1)
      ++ expected_pages term rest (S page_num)
  end.

(** What the tab reports for a list of matches. *)
Definition search_report (matches : list (nat * unicode)) : list notice :=
  match matches with
  | [] => [St_warning "No matches found in the document."]
  | _ :: _ =>
      St_success ("Found " +:+ str_int (Z.of_nat (length matches)) +:+ " match(es):")
      :: (match_line <$> matches)
  end.

(** The total over the pages of the document. *)
Definition total_occurrences (term : unicode) (pdf_pages : list unicode) : nat :=
  sum_list (occurrences term <$> pdf_pages).

(** The search reports every occurrence: the tab shows the report of a list
    of matches that has one entry per occurrence of the term, page by page,
    in page order. *)
Definition search_reports_all (term : unicode) (pdf_pages : list unicode)
    (w : world) : Prop :=
  exists matches,
    screen (fst (search_tab term pdf_pages w)) = screen w ++ search_report matches /\
    length matches = total_occurrences term pdf_pages /\
    fst <$> matches = expected_pages term pdf_pages 0 /\
    StronglySorted le (fst <$> matches).

End search.

(** ** Concrete inputs for the examples *)

(** The statement of the revision-history property as the specification
    words it: the history of every stored annotation is the one-element list
    holding a copy of that annotation. *)
Definition history_is_creation_copy (w : world) : Prop :=
  forall page a, a ∈ annotations_at w page ->
    exists id, a !! "id" = Some (PyStr id) /\ history_at w id = Some [a].

(** The relay message of the specification's example: a JSON object with
    type chat, user alice, message hi and timestamp 1700000000, written with
    its double quotes. *)
Definition json_field (key value : string) : string :=
  dquote +:+ key +:+ dquote +:+ ":" +:+ value.
Definition json_text (s : string) : string := dquote +:+ s +:+ dquote.

Definition sample_chat_message : string :=
  "{" +:+ json_field "type" (json_text "chat") +:+ ","
      +:+ json_field "user" (json_text "alice") +:+ ","
      +:+ json_field "message" (json_text "hi") +:+ ","
      +:+ json_field "timestamp" "1700000000" +:+ "}".

Definition sample_chat_event : pydict :=
  list_to_map
    [("type", PyStr "chat"); ("user", PyStr "alice"); ("message", PyStr "hi");
     ("timestamp", PyInt 1700000000)].

(** A message of a kind the callback does not know. *)
Definition sample_ping_message : string :=
  "{" +:+ json_field "type" (json_text "ping") +:+ "}".

Definition sample_ping_event : pydict := list_to_map [("type", PyStr "ping")].

(** The library functions at the inputs of the examples: Python's answers
    there, tabulated. Any other text is answered as undecodable and any
    other float as [0.0]; the examples do not look at a payload. *)
Definition sample_lib : PyLib := {|
  str_float x :=
    if (x =? 1700000000.25)%float then "1700000000.25"
    else if (x =? 1700000000.5)%float then "1700000000.5"
    else if (x =? 1700000001)%float then "1700000001.0"
    else "0.0";
  json_loads text :=
    if String.eqb text sample_chat_message then inr (PyDict sample_chat_event)
    else if String.eqb text sample_ping_message then inr (PyDict sample_ping_event)
    else inl (Exn "JSONDecodeError" "Expecting value: line 1 column 1 (char 0)");
  json_dumps _ := "{}";
|}.

(** A clock that advances, and one that answers the same reading twice in a
    row and onwards. *)
Definition running_clock (n : nat) : float :=
  match n with
  | 0 => 1700000000.25
  | 1 => 1700000000.5
  | _ => 1700000001
  end%float.

Definition stopped_clock (n : nat) : float := 1700000000.25%float.

(** The first run of a browser session. *)
Definition first_visit : world := World new_session [] [] running_clock 0.
Definition first_visit_stopped : world := World new_session [] [] stopped_clock 0.

Definition working_relay : transport := Transport None (fun _ => None) None.

Definition refusing_relay : transport :=
  Transport (Some (Exn "ConnectionRefusedError" "[Errno 111] Connection refused"))
            (fun _ => None) None.

(** A session whose user has set the name bob. *)
Definition bob_visit : world :=
  World (set_username "bob" new_session) [] [] running_clock 0.

Definition two_pages : list string := ["Hello world"; "the end. Help!"].

(** The same two pages as the search reads them. *)
Definition two_texts : list unicode := codes <$> two_pages.

(** The regex engine's comparison on the characters of the examples. On code
    points below 256 it compares the lower-case forms, and there A-Z and the
    accented capitals of Latin-1 have their lower case 32 places up. The
    examples stay within ASCII; what the rule says of other characters is
    not used. *)
Definition latin1_lower (c : codepoint) : codepoint :=
  if ((65 <=? c) && (c <=? 90)
      || (192 <=? c) && (c <=? 222) && negb (c =? 215))%N
  then (c + 32)%N
  else c.

Definition sample_case : CaseRule := {|
  literal_ignore pc c := (latin1_lower c =? latin1_lower pc)%N;
|}.

(** Two annotations saved on the first page, the second after a round trip
    to the next page. *)
Definition two_saves : list action :=
  [Save_annotation "Hello" "a greeting" working_relay;
   Next_page; Previous_page;
   Save_annotation "world" "its addressee" refusing_relay].

(** Two annotations saved on the first page while the clock stands still. *)
Definition colliding_saves : list action :=
  [Save_annotation "Hello" "first note" working_relay;
   Save_annotation "Hello" "second note" working_relay].

(** The field [annotation] of the only entry of a revision history. *)
Definition only_revision_text (history : option (list pydict)) : option pyvalue :=
  match history with
  | Some (rev :: _) => rev !! "annotation"
  | _ => None
  end.

(** ** Text extraction (extract_pdf_text, lines 44-83) *)

(** The uploaded file as the libraries see it. [PdfReader(file)] raises or
    gives the pages, each with what [page.extract_text()] does on it (raises,
    or returns [None] or a string); [convert_from_bytes] raises or gives the
    page images, each with what [pytesseract.image_to_string] does on it. *)
Record pdf_upload := Upload {
  pdf_reader : exn + list (exn + option string);
  pdf_images : exn + list (exn + string);
}.

(** The two f-strings of lines 74, 76 and 78, for the page at index [i]. *)
Definition no_text_notice (i : nat) : string :=
  "Page " +:+ str_int (Z.of_nat i + 1) +:+ " has no extractable text.".

Definition ocr_error_notice (i : nat) (e : exn) : string :=
  "Error during OCR on Page " +:+ str_int (Z.of_nat i + 1) +:+ ": " +:+ exn_str e.

(** [images and i < len(images)] *)
Definition has_image (images : list (exn + string)) (i : nat) : bool :=
  match images with
  | [] => false
  | _ :: _ => i <? length images
  end.

(** The body of the loop, lines 67-79: the text kept for page [i]. *)
Definition resolve_page_text (images : list (exn + string)) (i : nat)
    (text : option string) : string :=
  let fallback :=
    if has_image images i then
      match images !! i with
      | Some (inr ocr_text) =>
          if str_bool (strip ocr_text) then ocr_text else no_text_notice i
      | Some (inl e) => ocr_error_notice i e
      | None => no_text_notice i
      end
    else no_text_notice i in
  match text with
  | Some s => if str_bool s && str_bool (strip s) then s else fallback
  | None => fallback
  end.

(** The loop over [enumerate(reader.pages)] from index [i] on; a page whose
    [extract_text] raises ends it. *)
Fixpoint extract_pages (images : list (exn + string))
    (pages : list (exn + option string)) (i : nat) : M (list string) :=
  match pages with
  | [] => mret []
  | page :: rest =>
      text ← lift_result page;
      texts ← extract_pages images rest (S i);
      mret (resolve_page_text images i text :: texts)
  end.

Definition extract_pdf_text (file : pdf_upload) : M (list string * bool) :=
  try_except
    (pages ← lift_result (pdf_reader file);
     images ← try_except (lift_result (pdf_images file))
                (fun _ =>
                   st_warning
                     "OCR conversion failed; make sure Poppler is installed properly.";;
                   mret []);
     texts ← extract_pages images pages 0;
     mret (texts, true))
    (fun e =>
       st_error ("PDF Error: " +:+ exn_str e);;
       mret (["Error processing PDF: " +:+ exn_str e], false)).

(** ** The page shown by the viewer (line 341) *)

(** [l[i]] on a list: a negative index counts from the end. *)
Definition list_getitem {A} (l : list A) (i : Z) : M A :=
  let j := if (i <? 0)%Z then (i + Z.of_nat (length l))%Z else i in
  if (j <? 0)%Z then raise (Exn "IndexError" "list index out of range")
  else match l !! Z.to_nat j with
       | Some x => mret x
       | None => raise (Exn "IndexError" "list index out of range")
       end.

(** [pdf_pages[st.session_state.current_page]] *)
Definition current_page_text (pdf_pages : list string) : M string :=
  cur ← state_get "current_page" current_page;
  list_getitem pdf_pages cur.

(** ** The user profile of the sidebar (lines 194-205) *)

Definition sidebar_profile (username_input : string) (clicked : bool) : M unit :=
  has ← state_has username;
  unless has (state_set (set_username ""));;
  name ← state_get "username" username;
  if String.eqb name "" then
    if clicked then
      if str_bool (strip username_input) then
        state_set (set_username (strip username_input));;
        name ← state_get "username" username;
        st_success ("Username set to '" +:+ name +:+ "'")
      else st_error "Please enter a valid username."
    else mret ()
  else st_info ("Logged in as: **" +:+ name +:+ "**").

(** A user name is settled: not blank, and with no white space around it. *)
Definition settled_name (name : string) : Prop :=
  name <> "" /\ strip name = name.

(** ** Starting the listener (start_ws_client, lines 170-174) *)

(** The flag [ws_client_started] of the session state and the listener
    threads started so far. *)
Record listener_state := Listener {
  ws_client_started : option bool;
  listener_threads : nat;
}.

Definition start_ws_client (s : listener_state) : listener_state :=
  match ws_client_started s with
  | None => Listener (Some true) (S (listener_threads s))
  | Some _ => s
  end.

(** [start_ws_client] once per run of the script, over [runs] runs. *)
Fixpoint start_ws_client_runs (runs : nat) (s : listener_state) : listener_state :=
  match runs with
  | 0 => s
  | S k => start_ws_client_runs k (start_ws_client s)
  end.

(** ** Summarization (summarize_text, lines 104-130) *)

Definition newline : string := String "010" "".

(** [v[key]] for a string key. *)
Definition subscript_key (v : pyvalue) (key : string) : M pyvalue :=
  match v with
  | PyDict d =>
      match d !! key with
      | Some x => mret x
      | None => raise (Exn "KeyError" ("'" +:+ key +:+ "'"))
      end
  | PyList _ =>
      raise (Exn "TypeError" "list indices must be integers or slices, not str")
  | PyStr _ => raise (Exn "TypeError" "string indices must be integers, not 'str'")
  | other =>
      raise (Exn "TypeError"
                 ("'" +:+ type_name other +:+ "' object is not subscriptable"))
  end.

(** [v[0]] *)
Definition subscript_first (v : pyvalue) : M pyvalue :=
  match v with
  | PyList l => list_getitem l 0
  | PyStr s =>
      match s with
      | String c _ => mret (PyStr (String c ""))
      | EmptyString => raise (Exn "IndexError" "string index out of range")
      end
  | PyDict _ => raise (Exn "KeyError" "0")
  | other =>
      raise (Exn "TypeError"
                 ("'" +:+ type_name other +:+ "' object is not subscriptable"))
  end.

(** [v.strip()] *)
Definition strip_method (v : pyvalue) : M string :=
  match v with
  | PyStr s => mret (strip s)
  | other =>
      raise (Exn "AttributeError"
                 ("'" +:+ type_name other +:+ "' object has no attribute 'strip'"))
  end.

(** The keyword arguments of [openai.ChatCompletion.create], lines 117-125. *)
Definition summary_request (text : string) : pyvalue :=
  PyDict (list_to_map
    [("model", PyStr "gpt-3.5-turbo");
     ("messages",
      PyList
        [PyDict (list_to_map
                   [("role", PyStr "system");
                    ("content",
                     PyStr "You are a helpful assistant that summarizes text concisely.")]);
         PyDict (list_to_map
                   [("role", PyStr "user");
                    ("content",
                     PyStr ("Summarize the following text:" +:+ newline +:+ newline
                            +:+ text))])]);
     ("max_tokens", PyInt 150);
     ("temperature", PyFloat 0.5)]).

(** [if not openai_api_key], for what the secrets lookup returned. *)
Definition secret_set (api_key : option string) : bool :=
  match api_key with
  | Some k => str_bool k
  | None => false
  end.

(** [api_key] is what [st.secrets.get("OPENAI_API_KEY", None)] returned.
    [openai] is the binding of the name [openai] in the script: [None] when
    the import of lines 24-27 failed, which the script lets pass with a
    warning, and otherwise the API call [openai.ChatCompletion.create] on its
    keyword arguments. Line 114 reads the name before the [try] begins. *)
Definition summarize_text (api_key : option string)
    (openai : option (pyvalue -> exn + pyvalue)) (text : string) : M string :=
  if secret_set api_key then
    create ← load_name "openai" openai;
    try_except
      (response ← lift_result (create (summary_request text));
       choices ← subscript_key response "choices";
       choice ← subscript_first choices;
       message ← subscript_key choice "message";
       content ← subscript_key message "content";
       strip_method content)
      (fun e =>
         st_error ("Error during summarization: " +:+ exn_str e);;
         mret "Summarization failed.")
  else
    st_error "OpenAI API key not found in secrets. Please add it as OPENAI_API_KEY.";;
    mret "Summarization unavailable.".

(** ** Translation (translate_text, lines 85-94) *)

(** [translate] is [Translator().translate(text, dest=dest_lang).text], or
    the exception on the way to it. *)
Definition translate_text (translate : string -> string -> exn + string)
    (text dest_lang : string) : M string :=
  try_except (lift_result (translate text dest_lang))
    (fun e => st_error ("Translation Error: " +:+ exn_str e);; mret text).

(** ** Observations on the functions above *)

(** The texts the loop of [extract_pdf_text] keeps when no page raises. *)
Fixpoint resolve_pages (images : list (exn + string)) (texts : list (option string))
    (i : nat) : list string :=
  match texts with
  | [] => []
  | text :: rest => resolve_page_text images i text :: resolve_pages images rest (S i)
  end.

(** The images the loop works with: none when the conversion raised. *)
Definition ocr_images (file : pdf_upload) : list (exn + string) :=
  match pdf_images file with
  | inr images => images
  | inl _ => []
  end.

(** The notice of a failed conversion, if it failed. *)
Definition ocr_warning (file : pdf_upload) : list notice :=
  match pdf_images file with
  | inr _ => []
  | inl _ =>
      [St_warning "OCR conversion failed; make sure Poppler is installed properly."]
  end.

(** Reading the file fails with [e]: [PdfReader] raises it, or it is the
    first exception of an [extract_text]. *)
Definition reading_fails (file : pdf_upload) (e : exn) : Prop :=
  pdf_reader file = inl e \/
  exists texts rest,
    pdf_reader file = inr ((inr <$> texts) ++ inl e :: rest).

(** [not text or not text.strip()] *)
Definition lacks_text (text : option string) : Prop :=
  match text with
  | Some s => strip s = ""
  | None => True
  end.

(** One span ends before the next begins. *)
Definition span_before (a b : nat * nat) : Prop := snd a <= fst b.

(** A string without underscore. *)
Definition no_underscore (s : string) : Prop :=
  Forall (fun c => c <> "_"%char) (chars s).

(** [shown] is [plain] with copies of the two tags put in: reading [shown]
    and leaving the tags out gives [plain] back, character by character. *)
Inductive tagged (before after : unicode) : unicode -> unicode -> Prop :=
| tagged_nil : tagged before after [] []
| tagged_char c shown plain :
    tagged before after shown plain ->
    tagged before after (c :: shown) (c :: plain)
| tagged_before shown plain :
    tagged before after shown plain ->
    tagged before after (before ++ shown) plain
| tagged_after shown plain :
    tagged before after shown plain ->
    tagged before after (after ++ shown) plain.

(** The text [rest], which begins at position [pos] of a larger text, with
    every span of [spans] put between the two tags and everything else
    copied. The spans are positions of the larger text, in order. *)
Fixpoint wrap_spans (before after : unicode) (rest : unicode) (pos : nat)
    (spans : list (nat * nat)) : unicode :=
  match spans with
  | [] => rest
  | span :: spans' =>
      take (fst span - pos) rest
      ++ before
      ++ take (snd span - fst span) (drop (fst span - pos) rest)
      ++ after
      ++ wrap_spans before after (drop (snd span - pos) rest) (snd span) spans'
  end.

(** The context of a match, lines 419-421: the text from at most 100
    characters before the match to at most 100 after its end. *)
Definition context_of (text : unicode) (span : nat * nat) : unicode :=
  take (Nat.min (length text) (snd span + 100) - (fst span - 100))
       (drop (fst span - 100) text).

(** ** The claims as the specification words them, where the code departs *)

Section worded.
Context `{PyLib}.

(** The id is the page index, an underscore and the creation timestamp, the
    one the annotation carries in its field [timestamp]. *)
Definition id_from_timestamp (a : pydict) (page_index : Z) : Prop :=
  exists t,
    a !! "timestamp" = Some (PyFloat t) /\
    a !! "id" = Some (PyStr (annotation_id page_index t)).

End worded.

(** ** Concrete inputs for the further examples *)

(** A PDF of three pages: text, nothing, white space. The images convert;
    the second one reads as text, the OCR of the third raises. *)
Definition sample_upload : pdf_upload :=
  Upload (inr [inr (Some "Chapter one"); inr None; inr (Some "   ")])
         (inr [inr "ignored"; inr "scanned words"; inl (Exn "TesseractError" "no engine")]).

(** The same pages when Poppler is missing. *)
Definition sample_upload_no_ocr : pdf_upload :=
  Upload (inr [inr (Some "Chapter one"); inr None; inr (Some "   ")])
         (inl (Exn "PDFInfoNotInstalledError" "Unable to get page count.")).

(** A file that is no PDF. *)
Definition broken_upload : pdf_upload :=
  Upload (inl (Exn "PdfReadError" "EOF marker not found")) (inr []).

(** A PDF without pages. *)
Definition empty_upload : pdf_upload := Upload (inr []) (inr []).

(** A session whose sidebar default has run. *)
Definition anonymous_visit : world :=
  World (set_username "" new_session) [] [] running_clock 0.

(** An answer of the completion API with surrounding white space. *)
Definition sample_completion : pyvalue :=
  PyDict (list_to_map
    [("choices",
      PyList [PyDict (list_to_map
                [("message",
                  PyDict (list_to_map
                    [("role", PyStr "assistant");
                     ("content", PyStr "  A short summary. ")]))])])]).

Definition sample_create (request : pyvalue) : exn + pyvalue := inr sample_completion.

(** An annotation as another session publishes it. *)
Definition sample_annotation_event : pydict :=
  list_to_map
    [("id", PyStr "0_1700000000.25"); ("page", PyInt 1);
     ("selected_text", PyStr "Hello"); ("annotation", PyStr "a greeting");
     ("timestamp", PyFloat 1700000000.5); ("user", PyStr "alice");
     ("type", PyStr "annotation")].

(** A library whose JSON functions undo each other on bob's chat event, and
    which decodes one annotation message. The texts stand for the JSON. *)
Definition echo_lib : PyLib := {|
  str_float _ := "1700000000.25";
  json_loads text :=
    if String.eqb text "bob says hello"
    then inr (PyDict (chat_event 1700000000.25%float "bob" "hello"))
    else if String.eqb text "alice annotates"
    then inr (PyDict sample_annotation_event)
    else inl (Exn "JSONDecodeError" "Expecting value: line 1 column 1 (char 0)");
  json_dumps _ := "bob says hello";
|}.
(** * Proofs *)

Section proofs.
Context `{PyLib}.

Lemma bind_inr {A B} (m : M A) (f : A -> M B) w w1 x :
  m w = (w1, inr x) -> (m ≫= f) w = f x w1.
Proof. intros Hm. unfold mbind, M_bind. by rewrite Hm. Qed.

Lemma sidebar_init_run w :
  sidebar_init w = (with_session (sidebar_session (session w)) w, inr ()).
Proof.
  destruct w as [[u cp an rh ca cc] scr wr clk tk].
  destruct u; reflexivity.
Qed.

Lemma tab1_init_run w :
  tab1_init w = (with_session (tab1_session (session w)) w, inr ()).
Proof.
  destruct w as [[u cp an rh ca cc] scr wr clk tk].
  destruct cp, an, rh, ca; reflexivity.
Qed.

Lemma tab5_init_run w :
  tab5_init w = (with_session (tab5_session (session w)) w, inr ()).
Proof.
  destruct w as [[u cp an rh ca cc] scr wr clk tk].
  destruct cc; reflexivity.
Qed.

(** *** Blank input *)

Lemma rstrip_lstrip_blank s : rstrip (lstrip s) = "" -> lstrip s = "".
Proof.
  induction s as [|c s IH]; simpl; [done|].
  destruct (isspace c) eqn:Hc; [done|].
  simpl. rewrite Hc. by destruct (rstrip s).
Qed.

(** A string strips to the empty string exactly when every character of it
    is white space. *)
Lemma strip_blank_iff s :
  strip s = "" <-> Forall (fun c => isspace c = true) (list_ascii_of_string s).
Proof.
  unfold strip. split.
  - intros Hs. apply rstrip_lstrip_blank in Hs. clear -Hs.
    induction s as [|c s IH]; simpl in *; [constructor|].
    destruct (isspace c) eqn:Hc; [|done]. constructor; auto.
  - intros Hall. assert (lstrip s = "") as ->; [|done].
    induction s as [|c s IH]; simpl in *; [done|].
    inversion Hall as [|? ? Hc Hrest]; subst. rewrite Hc. auto.
Qed.

Lemma str_ne_empty s : str_ne s "" = str_bool s.
Proof. by destruct s. Qed.

Lemma str_bool_false s : str_bool s = false <-> s = "".
Proof. by destruct s. Qed.

Lemma str_bool_true s : str_bool s = true <-> s <> "".
Proof. by destruct s. Qed.

(** The chat event, field by field. *)
Lemma chat_event_fields t user chat_message :
  ({[ "type" := PyStr "chat";
      "timestamp" := PyFloat t;
      "user" := PyStr user;
      "message" := PyStr (strip chat_message) ]} : pydict)
  = chat_event t user chat_message.
Proof. unfold chat_event. simpl. by rewrite insert_empty. Qed.

End proofs.

(** * Input validation of the two forms *)

Section validation.
Context `{PyLib}.

(** The initialisation blocks only fill in missing attributes. *)
Lemma init_blocks_run {A} (k : M A) w :
  (sidebar_init;; tab1_init;; k) w
  = k (with_session (tab1_session (sidebar_session (session w))) w).
Proof.
  rewrite (bind_inr _ _ _ _ _ (sidebar_init_run w)).
  rewrite (bind_inr _ _ _ _ _ (tab1_init_run _)).
  reflexivity.
Qed.

Lemma chat_init_blocks_run {A} (k : M A) w :
  (sidebar_init;; tab1_init;; tab5_init;; k) w
  = k (with_session
         (tab5_session (tab1_session (sidebar_session (session w)))) w).
Proof.
  rewrite init_blocks_run.
  rewrite (bind_inr _ _ _ _ _ (tab5_init_run _)).
  reflexivity.
Qed.

(** Save Annotation with a blank field: the warning, and nothing else. *)
Lemma save_annotation_blank selected_text annotation_text relay w :
  strip selected_text = "" \/ strip annotation_text = "" ->
  save_annotation_button true selected_text annotation_text relay w
  = (noticed (St_warning "Please enter both the selected text and your annotation.") w,
     inr ()).
Proof.
  intros Hblank. unfold save_annotation_button.
  assert (str_ne (strip selected_text) "" && str_ne (strip annotation_text) "" = false)
    as ->; [|reflexivity].
  rewrite !str_ne_empty.
  destruct Hblank as [-> | ->]; simpl; [done|].
  by destruct (str_bool _).
Qed.

(** Send Message with a blank text, on a session whose chat log exists: the
    handler is left by a [NameError], with the world as it was. *)
Lemma send_message_blank chat_message relay w chat :
  strip chat_message = "" ->
  collab_chat (session w) = Some chat ->
  send_message_button true chat_message relay w
  = (w, inl (Raised (Exn "NameError" "name 'chat_data' is not defined"))).
Proof.
  intros Hblank Hchat. unfold send_message_button. rewrite Hblank. simpl.
  unfold mbind, M_bind, mret, M_ret, state_get. rewrite Hchat. reflexivity.
Qed.

End validation.

(** * Publishing and the chat form *)

Section publishing.
Context `{PyLib}.

Lemma publish_run relay event w :
  publish relay event w
  = (World (session w) (screen w)
           (wire w ++ relay_calls relay (json_dumps (PyDict event)))
           (clock w) (ticks w),
     match relay_failure relay (json_dumps (PyDict event)) with
     | Some e => inl (Raised e)
     | None => inr ()
     end).
Proof.
  unfold publish, relay_calls, relay_failure, ws, mbind, M_bind.
  destruct w as [s scr wr clk tk]; simpl.
  destruct (connect_raises relay); simpl; [done|].
  destruct (send_raises relay _); simpl; rewrite <- ?app_assoc; simpl; [done|].
  by destruct (close_raises relay).
Qed.

(** A publish attempt inside [try ... except Exception]: the calls are made
    and a failure becomes one error notice; the block always falls through. *)
Lemma try_publish_run relay event text w :
  try_except (publish relay event) (fun e => st_error (text +:+ exn_str e)) w
  = (World (session w)
           (screen w ++ match relay_failure relay (json_dumps (PyDict event)) with
                        | Some e => [St_error (text +:+ exn_str e)]
                        | None => []
                        end)
           (wire w ++ relay_calls relay (json_dumps (PyDict event)))
           (clock w) (ticks w),
     inr ()).
Proof.
  unfold try_except. rewrite publish_run.
  destruct (relay_failure relay _); simpl; [done|].
  by rewrite app_nil_r.
Qed.

(** The relay raised during an attempt exactly when the attempt failed. *)
Lemma relay_calls_raised relay payload :
  Exists call_raised (relay_calls relay payload)
  <-> is_Some (relay_failure relay payload).
Proof.
  unfold relay_calls, relay_failure, call_raised.
  destruct (connect_raises relay) as [e|]; simpl.
  { split; [eauto|]. intros _. by apply Exists_cons_hd. }
  destruct (send_raises relay payload) as [e|]; simpl.
  { split; [eauto|]. intros _. apply Exists_cons_tl, Exists_cons_hd. simpl. eauto. }
  split.
  - rewrite !Exists_cons, Exists_nil. simpl.
    intros [Hc|[Hs|[Hcl|[]]]]; [by destruct Hc|by destruct Hs|done].
  - intros Hclose. do 2 apply Exists_cons_tl. by apply Exists_cons_hd.
Qed.

(** Send Message with a text that is not blank. *)
Lemma send_message_sent chat_message relay w user chat :
  str_bool (strip chat_message) = true ->
  username (session w) = Some user ->
  collab_chat (session w) = Some chat ->
  let event := chat_event (clock w (ticks w)) user chat_message in
  let payload := json_dumps (PyDict event) in
  send_message_button true chat_message relay w
  = (World (set_collab_chat (chat ++ [event]) (session w))
           (screen w ++ match relay_failure relay payload with
                        | Some e =>
                            [St_error
                               ("Failed to send chat message to collaboration server: "
                                +:+ exn_str e)]
                        | None => []
                        end)
           (wire w ++ relay_calls relay payload)
           (clock w) (S (ticks w)),
     inl RerunRequested).
Proof.
  intros Htext Huser Hchat. unfold send_message_button. rewrite Htext.
  unfold mbind at 1. unfold M_bind.
  unfold mbind at 1. unfold M_bind. unfold time_time at 1.
  unfold mbind at 1. unfold M_bind. unfold state_get at 1. simpl. rewrite Huser.
  unfold mret at 1. unfold M_ret.
  unfold mbind at 1. unfold M_bind. unfold state_get at 1. simpl. rewrite Hchat.
  unfold load_name, mret, M_ret.
  unfold mbind at 1. unfold M_bind.
  unfold mbind at 1. unfold M_bind. unfold state_set at 1. simpl.
  unfold mbind at 1. unfold M_bind. rewrite try_publish_run. simpl.
  reflexivity.
Qed.

End publishing.

(** * The websocket callback *)

Section listener.
Context `{PyLib}.

Lemma py_eq_str_true v s : py_eq_str v s = true <-> v = PyStr s.
Proof.
  destruct v; simpl; try (split; [done|by intros [=]]).
  rewrite String.eqb_eq. split; [by intros ->|by intros [= ->]].
Qed.

Lemma py_eq_str_false v s : py_eq_str v s = false <-> v <> PyStr s.
Proof.
  rewrite <- py_eq_str_true. by destruct (py_eq_str v s).
Qed.

(** A payload [json.loads] rejects: one error notice, normal return. *)
Lemma on_message_malformed message e w :
  json_loads message = inl e ->
  on_message message w
  = (noticed (St_error ("Error processing collaborative message: " +:+ exn_str e)) w,
     inr ()).
Proof.
  intros Hloads. unfold on_message, try_except.
  unfold mbind at 1. unfold M_bind. rewrite Hloads. reflexivity.
Qed.

(** A decoded value that is not a dict has no [get]: the [AttributeError] is
    reported the same way. *)
Lemma on_message_not_dict message v w :
  json_loads message = inr v ->
  (forall d, v <> PyDict d) ->
  on_message message w
  = (noticed (St_error ("Error processing collaborative message: "
                        +:+ "'" +:+ type_name v +:+ "' object has no attribute 'get'")) w,
     inr ()).
Proof.
  intros Hloads Hv. unfold on_message, try_except.
  unfold mbind at 1. unfold M_bind. rewrite Hloads. simpl.
  destruct v; try reflexivity. by destruct (Hv d).
Qed.

Lemma on_message_chat message d w :
  json_loads message = inr (PyDict d) ->
  dict_get d "type" = PyStr "chat" ->
  on_message message w
  = (with_session (set_collab_chat (remote_chat w ++ [d]) (session w)) w,
     inl RerunRequested).
Proof.
  intros Hloads Htype. unfold on_message, try_except.
  unfold mbind at 1. unfold M_bind. rewrite Hloads. simpl.
  unfold mbind at 1. unfold M_bind. simpl. rewrite Htype. simpl.
  destruct w as [[u cp an rh ca cc] scr wr clk tk]. by destruct cc.
Qed.

Lemma on_message_annotation message d w :
  json_loads message = inr (PyDict d) ->
  dict_get d "type" = PyStr "annotation" ->
  on_message message w
  = (with_session
       (set_collab_annotations (remote_annotations w ++ [d]) (session w)) w,
     inl RerunRequested).
Proof.
  intros Hloads Htype. unfold on_message, try_except.
  unfold mbind at 1. unfold M_bind. rewrite Hloads. simpl.
  unfold mbind at 1. unfold M_bind. simpl. rewrite Htype. simpl.
  destruct w as [[u cp an rh ca cc] scr wr clk tk]. by destruct ca.
Qed.

Lemma on_message_other_dict message d w :
  json_loads message = inr (PyDict d) ->
  dict_get d "type" <> PyStr "annotation" ->
  dict_get d "type" <> PyStr "chat" ->
  on_message message w = (w, inl RerunRequested).
Proof.
  intros Hloads Hann Hchat. unfold on_message, try_except.
  apply py_eq_str_false in Hann, Hchat.
  unfold mbind at 1. unfold M_bind. rewrite Hloads. simpl.
  unfold mbind at 1. unfold M_bind. simpl. rewrite Hann, Hchat. simpl.
  reflexivity.
Qed.

(** Whatever arrives, the callback touches at most the two remote logs, and
    only by appending. *)
Lemma on_message_session message w :
  let s' := session (fst (on_message message w)) in
  username s' = username (session w) /\
  current_page s' = current_page (session w) /\
  annotations s' = annotations (session w) /\
  revision_history s' = revision_history (session w).
Proof.
  destruct (json_loads message) as [e|v] eqn:Hloads.
  { by rewrite (on_message_malformed _ _ _ Hloads). }
  destruct v as [| | | | | |d];
    try (rewrite (on_message_not_dict _ _ _ Hloads); [done|by intros d]).
  destruct (py_eq_str (dict_get d "type") "annotation") eqn:Ha.
  { apply py_eq_str_true in Ha. by rewrite (on_message_annotation _ _ _ Hloads Ha). }
  destruct (py_eq_str (dict_get d "type") "chat") eqn:Hc.
  { apply py_eq_str_true in Hc. by rewrite (on_message_chat _ _ _ Hloads Hc). }
  apply py_eq_str_false in Ha, Hc.
  by rewrite (on_message_other_dict _ _ _ Hloads Ha Hc).
Qed.

End listener.

(** * Save Annotation *)

Section annotations.
Context `{PyLib}.

(** Save Annotation with both fields filled in. *)
Lemma save_annotation_saved selected_text annotation_text relay w page user anns hist :
  valid_annotation_input selected_text annotation_text = true ->
  current_page (session w) = Some page ->
  username (session w) = Some user ->
  annotations (session w) = Some anns ->
  revision_history (session w) = Some hist ->
  let event := annotation_event page (clock w (ticks w)) (clock w (S (ticks w)))
                                selected_text annotation_text user in
  let payload := json_dumps (PyDict event) in
  save_annotation_button true selected_text annotation_text relay w
  = (World (set_revision_history
              (<[annotation_id page (clock w (ticks w)) := [event]]> hist)
              (set_annotations
                 (<[page := default [] (anns !! page) ++ [event]]> anns)
                 (session w)))
           (screen w ++ St_success "Annotation saved locally!" ::
              match relay_failure relay payload with
              | Some e =>
                  [St_error ("Failed to send annotation to collaboration server: "
                             +:+ exn_str e)]
              | None => []
              end)
           (wire w ++ relay_calls relay payload)
           (clock w) (S (S (ticks w))),
     inr ()).
Proof.
  intros Hvalid Hpage Huser Hanns Hhist. unfold save_annotation_button.
  unfold valid_annotation_input in Hvalid. rewrite Hvalid.
  destruct w as [s scr wr clk tk]. simpl in *.
  unfold mbind, M_bind, state_get, time_time, state_set, unless, st_success,
    st_notice, page_getitem, mret, M_ret. simpl.
  rewrite Hpage. simpl. rewrite Huser. simpl. rewrite Hanns. simpl.
  destruct (anns !! page) as [entries|] eqn:Hentries; simpl.
  - rewrite Hanns. simpl. rewrite Hentries. simpl. rewrite Hhist. simpl.
    rewrite try_publish_run. simpl. rewrite <- app_assoc. reflexivity.
  - rewrite lookup_insert_eq. simpl. rewrite Hhist. simpl.
    rewrite try_publish_run. simpl. rewrite insert_insert_eq.
    rewrite <- app_assoc. reflexivity.
Qed.

End annotations.

(** * One action at a time *)

Section steps.
Context `{PyLib}.
Variable pdf_pages : list string.

Lemma annotations_at_started w q :
  default [] (default ∅ (annotations (session w)) !! q) = annotations_at w q.
Proof.
  unfold annotations_at. destruct (annotations (session w)); simpl; [done|].
  by rewrite lookup_empty.
Qed.

Lemma history_at_started w i :
  default ∅ (revision_history (session w)) !! i = history_at w i.
Proof.
  unfold history_at. destruct (revision_history (session w)); simpl; [done|].
  by rewrite lookup_empty.
Qed.

Lemma step_save_valid selected_text annotation_text relay w :
  valid_annotation_input selected_text annotation_text = true ->
  session (step pdf_pages (Save_annotation selected_text annotation_text relay) w)
  = set_revision_history
      (<[saved_id w := [saved_event w selected_text annotation_text]]>
         (default ∅ (revision_history (session w))))
      (set_annotations
         (<[page_of w := annotations_at w (page_of w)
                         ++ [saved_event w selected_text annotation_text]]>
            (default ∅ (annotations (session w))))
         (tab1_session (sidebar_session (session w)))).
Proof.
  intros Hvalid. unfold step, handle. rewrite init_blocks_run.
  erewrite save_annotation_saved; [|done|reflexivity..].
  simpl. by rewrite annotations_at_started.
Qed.

Lemma step_save_invalid selected_text annotation_text relay w :
  valid_annotation_input selected_text annotation_text = false ->
  session (step pdf_pages (Save_annotation selected_text annotation_text relay) w)
  = tab1_session (sidebar_session (session w)).
Proof.
  intros Hvalid. unfold step, handle. rewrite init_blocks_run.
  unfold save_annotation_button. unfold valid_annotation_input in Hvalid.
  by rewrite Hvalid.
Qed.

Lemma step_previous w :
  session (step pdf_pages Previous_page w)
  = set_current_page (if (0 <? page_of w)%Z then page_of w - 1 else page_of w)%Z
      (tab1_session (sidebar_session (session w))).
Proof.
  unfold step, handle. rewrite init_blocks_run.
  unfold previous_page_button, mbind, M_bind, state_get. simpl.
  fold (page_of w). by destruct (0 <? page_of w)%Z.
Qed.

Lemma step_next w :
  session (step pdf_pages Next_page w)
  = set_current_page
      (if (page_of w <? Z.of_nat (length pdf_pages) - 1)%Z
       then page_of w + 1 else page_of w)%Z
      (tab1_session (sidebar_session (session w))).
Proof.
  unfold step, handle. rewrite init_blocks_run.
  unfold next_page_button, mbind, M_bind, state_get. simpl.
  fold (page_of w). by destruct (page_of w <? _)%Z.
Qed.

Lemma step_send_blank chat_message relay w :
  str_bool (strip chat_message) = false ->
  handle pdf_pages (Send_message chat_message relay) w
  = (with_session (tab5_session (tab1_session (sidebar_session (session w)))) w,
     inl (Raised (Exn "NameError" "name 'chat_data' is not defined"))).
Proof.
  intros Hblank. unfold handle. rewrite chat_init_blocks_run.
  apply str_bool_false in Hblank.
  by erewrite send_message_blank.
Qed.

Lemma step_send_sent chat_message relay w :
  str_bool (strip chat_message) = true ->
  let event := chat_event (clock w (ticks w)) (user_of w) chat_message in
  let payload := json_dumps (PyDict event) in
  handle pdf_pages (Send_message chat_message relay) w
  = (World (set_collab_chat (remote_chat w ++ [event])
              (tab1_session (sidebar_session (session w))))
           (screen w ++ match relay_failure relay payload with
                        | Some e =>
                            [St_error
                               ("Failed to send chat message to collaboration server: "
                                +:+ exn_str e)]
                        | None => []
                        end)
           (wire w ++ relay_calls relay payload)
           (clock w) (S (ticks w)),
     inl RerunRequested).
Proof.
  intros Htext. unfold handle. rewrite chat_init_blocks_run.
  by erewrite send_message_sent.
Qed.

(** The page index moves only on the two navigation buttons. *)
Lemma step_page_of a w :
  page_of (step pdf_pages a w)
  = match a with
    | Previous_page => if (0 <? page_of w)%Z then page_of w - 1 else page_of w
    | Next_page =>
        if (page_of w <? Z.of_nat (length pdf_pages) - 1)%Z
        then page_of w + 1 else page_of w
    | _ => page_of w
    end%Z.
Proof.
  unfold page_of at 1. destruct a as [| |st at_ r|m r|m].
  - by rewrite step_previous.
  - by rewrite step_next.
  - destruct (valid_annotation_input st at_) eqn:Hv.
    + by rewrite step_save_valid.
    + by rewrite step_save_invalid.
  - unfold step. destruct (str_bool (strip m)) eqn:Hm.
    + by rewrite step_send_sent.
    + by rewrite step_send_blank.
  - unfold step, handle.
    by destruct (on_message_session m w) as (_ & -> & _).
Qed.

(** The annotations of a page grow by what the action created there. *)
Lemma step_annotations_at a w q :
  annotations_at (step pdf_pages a w) q = annotations_at w q ++ created a w q.
Proof.
  unfold annotations_at at 1. destruct a as [| |st at_ r|m r|m]; simpl.
  - rewrite step_previous. simpl. by rewrite annotations_at_started, app_nil_r.
  - rewrite step_next. simpl. by rewrite annotations_at_started, app_nil_r.
  - destruct (valid_annotation_input st at_) eqn:Hv; simpl.
    + rewrite step_save_valid by done. simpl. case_bool_decide as Hq.
      * subst q. by rewrite lookup_insert_eq.
      * rewrite lookup_insert_ne by done.
        by rewrite annotations_at_started, app_nil_r.
    + rewrite step_save_invalid by done. simpl.
      by rewrite annotations_at_started, app_nil_r.
  - unfold step. destruct (str_bool (strip m)) eqn:Hm.
    + rewrite step_send_sent by done. simpl.
      by rewrite annotations_at_started, app_nil_r.
    + rewrite step_send_blank by done. simpl.
      by rewrite annotations_at_started, app_nil_r.
  - unfold step, handle.
    destruct (on_message_session m w) as (_ & _ & -> & _).
    by rewrite app_nil_r.
Qed.

(** The revision history gets one fresh one-element entry per valid save and
    is otherwise left alone. *)
Lemma step_history_at a w i :
  history_at (step pdf_pages a w) i
  = match a with
    | Save_annotation selected_text annotation_text _ =>
        if valid_annotation_input selected_text annotation_text
           && bool_decide (i = saved_id w)
        then Some [saved_event w selected_text annotation_text]
        else history_at w i
    | _ => history_at w i
    end.
Proof.
  unfold history_at at 1. destruct a as [| |st at_ r|m r|m]; simpl.
  - rewrite step_previous. simpl. by rewrite history_at_started.
  - rewrite step_next. simpl. by rewrite history_at_started.
  - destruct (valid_annotation_input st at_) eqn:Hv; simpl.
    + rewrite step_save_valid by done. simpl. case_bool_decide as Hi.
      * subst i. by rewrite lookup_insert_eq.
      * rewrite lookup_insert_ne by done. by rewrite history_at_started.
    + rewrite step_save_invalid by done. simpl. by rewrite history_at_started.
  - unfold step. destruct (str_bool (strip m)) eqn:Hm.
    + rewrite step_send_sent by done. simpl. by rewrite history_at_started.
    + rewrite step_send_blank by done. simpl. by rewrite history_at_started.
  - unfold step, handle.
    by destruct (on_message_session m w) as (_ & _ & _ & ->).
Qed.

End steps.

(** * Sequences of actions *)

Section sequences.
Context `{PyLib}.
Variable pdf_pages : list string.

Lemma step_in_range a w :
  in_range pdf_pages (page_of w) ->
  in_range pdf_pages (page_of (step pdf_pages a w)).
Proof.
  unfold in_range. intros Hw. rewrite step_page_of.
  destruct a; try done.
  - destruct (0 <? page_of w)%Z eqn:Hlt; [apply Z.ltb_lt in Hlt|]; lia.
  - destruct (page_of w <? _)%Z eqn:Hlt; [apply Z.ltb_lt in Hlt|]; lia.
Qed.

Lemma run_in_range acts w :
  in_range pdf_pages (page_of w) ->
  in_range pdf_pages (page_of (run pdf_pages acts w)).
Proof.
  revert w. induction acts as [|a acts IH]; intros w Hw; simpl; [done|].
  by apply IH, step_in_range.
Qed.

Lemma previous_at_first_page w :
  page_of w = 0%Z -> page_of (step pdf_pages Previous_page w) = 0%Z.
Proof. intros Hw. rewrite step_page_of, Hw. reflexivity. Qed.

Lemma next_at_last_page w :
  page_of w = (Z.of_nat (length pdf_pages) - 1)%Z ->
  page_of (step pdf_pages Next_page w) = (Z.of_nat (length pdf_pages) - 1)%Z.
Proof. intros Hw. rewrite step_page_of, Hw. by rewrite Z.ltb_irrefl. Qed.

(** Stored annotations are never rewritten: a page's list only grows at its
    end. *)
Lemma run_annotations_prefix acts w page :
  annotations_at w page `prefix_of` annotations_at (run pdf_pages acts w) page.
Proof.
  revert w. induction acts as [|a acts IH]; intros w; simpl; [done|].
  etrans; [|apply IH]. rewrite step_annotations_at. by apply prefix_app_r.
Qed.

Lemma created_length a w page :
  length (created a w page) = if creates_on a w page then 1 else 0.
Proof.
  destruct a; try done. unfold created. by destruct (creates_on _ _ _).
Qed.

Lemma run_annotations_length acts w page :
  length (annotations_at (run pdf_pages acts w) page)
  = length (annotations_at w page) + creations pdf_pages page acts w.
Proof.
  revert w. induction acts as [|a acts IH]; intros w; simpl; [lia|].
  rewrite IH, step_annotations_at, length_app, created_length. lia.
Qed.

Lemma saved_event_id w selected_text annotation_text :
  saved_event w selected_text annotation_text !! "id" = Some (PyStr (saved_id w)).
Proof. unfold saved_event, annotation_event. simpl. apply lookup_insert_eq. Qed.

Lemma saved_event_timestamp w selected_text annotation_text :
  saved_event w selected_text annotation_text !! "timestamp"
  = Some (PyFloat (clock w (S (ticks w)))).
Proof.
  unfold saved_event, annotation_event. simpl.
  rewrite !lookup_insert_ne by done. apply lookup_insert_eq.
Qed.

Lemma saved_event_page w selected_text annotation_text :
  saved_event w selected_text annotation_text !! "page"
  = Some (PyInt (page_of w + 1)).
Proof.
  unfold saved_event, annotation_event. simpl.
  rewrite lookup_insert_ne by done. apply lookup_insert_eq.
Qed.

Lemma step_history_seeded a w :
  history_seeded w -> history_seeded (step pdf_pages a w).
Proof.
  intros Hw page b. rewrite step_annotations_at, elem_of_app.
  intros [Hold|Hnew].
  - destruct (Hw page b Hold) as (id & rev & Hid & Hhist & Hrev & page' & Hin).
    exists id. rewrite step_history_at.
    destruct a as [| |st at_ r|m r|m];
      try (exists rev; split_and!; [done..|]; exists page';
           rewrite step_annotations_at; set_solver).
    destruct (valid_annotation_input st at_ && bool_decide (id = saved_id w))
      eqn:Hsave.
    + apply andb_prop in Hsave as [Hv Heq]. apply bool_decide_eq_true in Heq.
      exists (saved_event w st at_). split_and!; [done|done|..].
      * subst id. apply saved_event_id.
      * exists (page_of w). rewrite step_annotations_at. simpl.
        rewrite Hv, bool_decide_true by done. set_solver.
    + exists rev. split_and!; [done..|]. exists page'.
      rewrite step_annotations_at. set_solver.
  - destruct a as [| |st at_ r|m r|m]; simpl in Hnew; try set_solver.
    destruct (valid_annotation_input st at_) eqn:Hv; simpl in Hnew; [|set_solver].
    case_bool_decide as Hpage; [|set_solver].
    apply list_elem_of_singleton in Hnew. subst b page.
    exists (saved_id w), (saved_event w st at_).
    split_and!; [apply saved_event_id| |apply saved_event_id|].
    + rewrite step_history_at. by rewrite Hv, bool_decide_true.
    + exists (page_of w). rewrite step_annotations_at. simpl.
      rewrite Hv, bool_decide_true by done. set_solver.
Qed.

Lemma run_history_seeded acts w :
  history_seeded w -> history_seeded (run pdf_pages acts w).
Proof.
  revert w. induction acts as [|a acts IH]; intros w Hw; simpl; [done|].
  by apply IH, step_history_seeded.
Qed.

Lemma new_session_history_seeded w :
  session w = new_session -> history_seeded w.
Proof.
  intros Hnew page a. unfold annotations_at. rewrite Hnew. simpl. set_solver.
Qed.

End sequences.

(** * Keyword search *)

Section search.
Context `{CaseRule}.

Lemma special_is_not_alnum c : re.is_special c = true -> re.is_alnum c = false.
Proof.
  unfold re.is_special, re.special_chars, codes. simpl.
  rewrite !orb_true_iff, !N.eqb_eq. intros Hc.
  repeat (destruct Hc as [->|Hc]; [reflexivity|]). done.
Qed.

Lemma plain_is_not_backslash c :
  re.is_special c = false -> (c =? re.backslash)%N = false.
Proof.
  intros Hc. destruct (N.eqb_spec c re.backslash) as [->|]; [|done].
  discriminate Hc.
Qed.

Lemma plain_is_not_operator c :
  re.is_special c = false -> re.is_operator c = false.
Proof.
  intros Hc. destruct (re.is_operator c) eqn:Hop; [|done].
  revert Hop. unfold re.is_operator, re.operator_chars, codes. simpl.
  rewrite !orb_true_iff, !N.eqb_eq. intros Hop.
  repeat (destruct Hop as [->|Hop]; [discriminate Hc|]). done.
Qed.

Lemma chars_text_of l : chars (text_of l) = l.
Proof. apply list_ascii_of_string_of_list_ascii. Qed.

(** An escaped term parses to the characters of the term: every character
    stands for itself. *)
Lemma parse_escape term : re.parse (re.escape term) = Some term.
Proof.
  unfold re.escape.
  induction term as [|c l IH]; [done|].
  cbn [flat_map]. destruct (re.is_special c) eqn:Hc; cbn [app re.parse].
  - change (re.backslash =? re.backslash)%N with true. cbv iota.
    rewrite (special_is_not_alnum _ Hc). by rewrite IH.
  - rewrite (plain_is_not_backslash _ Hc), (plain_is_not_operator _ Hc).
    by rewrite IH.
Qed.

Lemma compile_escape term :
  re.compile (re.escape term) true = inr (re.Pattern term true).
Proof. unfold re.compile. by rewrite parse_escape. Qed.

(** The pattern matches at the start of a text exactly when the text starts
    with the pattern's characters, letter case aside. *)
Lemma match_here_same_letters p lits subject :
  re.ignorecase p = true ->
  re.match_here p lits subject = true
  <-> same_letters lits (take (length lits) subject).
Proof.
  intros Hic. unfold same_letters. revert subject.
  induction lits as [|pc lits IH]; intros [|c subject]; simpl.
  - split; [constructor|done].
  - split; [constructor|done].
  - split; [done|by intros ?%Forall2_cons_nil_inv].
  - rewrite andb_true_iff, IH, Forall2_cons.
    unfold re.char_matches, same_letter. by rewrite Hic.
Qed.

Lemma match_here_occurs p subject :
  re.ignorecase p = true ->
  re.match_here p (re.literals p) subject
  = bool_decide (occurs_at (re.literals p) subject 0).
Proof.
  intros Hic.
  destruct (re.match_here p (re.literals p) subject) eqn:Hm; symmetry.
  - apply bool_decide_eq_true.
    exact (proj1 (match_here_same_letters p _ subject Hic) Hm).
  - apply bool_decide_eq_false. intros Hs.
    pose proof (proj2 (match_here_same_letters p _ subject Hic) Hs). congruence.
Qed.

Lemma scan_length p subject pos skip :
  re.ignorecase p = true ->
  length (re.scan p subject pos skip) = count_from (re.literals p) subject skip.
Proof.
  intros Hic. revert pos skip.
  induction subject as [|c subject IH]; intros pos skip; simpl; [done|].
  destruct skip as [|k]; [|apply IH].
  rewrite <- (match_here_occurs p) by done.
  destruct (re.match_here p (re.literals p) (c :: subject)); simpl.
  - by rewrite IH.
  - apply IH.
Qed.

(** [finditer] finds as many matches as the term has occurrences. *)
Lemma finditer_length term text :
  length (re.finditer (re.Pattern term true) text) = occurrences term text.
Proof.
  unfold re.finditer, occurrences. destruct term as [|c l]; cbn [re.literals].
  - by rewrite length_fmap, length_seq.
  - by rewrite scan_length.
Qed.

Lemma collect_matches_pages term pdf_pages page_num :
  fst <$> collect_matches (re.Pattern term true) pdf_pages page_num
  = expected_pages term pdf_pages page_num.
Proof.
  revert page_num. induction pdf_pages as [|text rest IH]; intros k; simpl; [done|].
  rewrite fmap_app, IH. f_equal.
  rewrite <- list_fmap_compose, <- finditer_length.
  by apply const_fmap.
Qed.

Lemma expected_pages_length term pdf_pages page_num :
  length (expected_pages term pdf_pages page_num) = total_occurrences term pdf_pages.
Proof.
  revert page_num. unfold total_occurrences.
  induction pdf_pages as [|text rest IH]; intros k; simpl; [done|].
  by rewrite length_app, length_replicate, IH.
Qed.

Lemma expected_pages_bound term pdf_pages page_num x :
  x ∈ expected_pages term pdf_pages page_num -> page_num + 1 <= x.
Proof.
  revert page_num. induction pdf_pages as [|text rest IH]; intros k; simpl.
  - by intros ?%elem_of_nil.
  - rewrite elem_of_app. intros [Hx%elem_of_replicate_inv|Hx%IH]; lia.
Qed.

Lemma expected_pages_sorted term pdf_pages page_num :
  StronglySorted le (expected_pages term pdf_pages page_num).
Proof.
  revert page_num. induction pdf_pages as [|text rest IH]; intros k; simpl.
  - constructor.
  - apply StronglySorted_app_2; [| |apply IH].
    + intros x1 x2 ->%elem_of_replicate_inv Hx2%expected_pages_bound. lia.
    + induction (occurrences term text) as [|n IHn]; simpl; constructor; [done|].
      apply Forall_replicate. lia.
Qed.

Lemma show_matches_run matches w :
  show_matches matches w
  = (World (session w) (screen w ++ (match_line <$> matches)) (wire w)
           (clock w) (ticks w), inr ()).
Proof.
  revert w. induction matches as [|entry rest IH]; intros w; simpl.
  - rewrite app_nil_r. by destruct w.
  - unfold mbind, M_bind, st_notice. rewrite IH. simpl.
    by rewrite <- app_assoc.
Qed.

Lemma str_nonempty_true s : s <> [] -> str.nonempty s = true.
Proof. by destruct s. Qed.

(** The tab on a term that is not blank. *)
Lemma search_tab_run term pdf_pages w :
  str.nonempty (str.strip term) = true ->
  search_tab term pdf_pages w
  = (World (session w)
           (screen w ++ search_report
                          (collect_matches (re.Pattern term true) pdf_pages 0))
           (wire w) (clock w) (ticks w),
     inr ()).
Proof.
  intros Hterm. unfold search_tab. rewrite Hterm.
  unfold mbind at 1. unfold M_bind. rewrite compile_escape. simpl.
  destruct (collect_matches _ _ _) as [|entry rest] eqn:Hms; simpl.
  - reflexivity.
  - unfold mbind, M_bind, st_success, st_notice. simpl.
    rewrite show_matches_run. simpl. by rewrite <- !app_assoc.
Qed.

(** The tab on a blank term does nothing at all. *)
Lemma search_tab_blank term pdf_pages w :
  str.strip term = [] -> search_tab term pdf_pages w = (w, inr ()).
Proof. intros Hterm. unfold search_tab. by rewrite Hterm. Qed.

Lemma search_reports_all_holds term pdf_pages w :
  str.nonempty (str.strip term) = true -> search_reports_all term pdf_pages w.
Proof.
  intros Hterm.
  exists (collect_matches (re.Pattern term true) pdf_pages 0).
  rewrite search_tab_run by done. split_and!.
  - reflexivity.
  - rewrite <- (length_fmap fst), collect_matches_pages.
    apply expected_pages_length.
  - apply collect_matches_pages.
  - rewrite collect_matches_pages. apply expected_pages_sorted.
Qed.

End search.

(** * The claims *)

Section claims.
Context `{PyLib}.
Variable pdf_pages : list string.

(** C1 (the code departs from the claim). Send Message clicked with a text
    that is blank: the claim expects a validation warning and an untouched
    state. The handler shows no warning: it is left by an uncaught
    [NameError], because only the assignment of [chat_data] is guarded by the
    test of the text. The session (beyond the defaults of the initialisation
    blocks), the page and the relay are as before. *)
Theorem send_message_blank_text_raises_NameError relay w :
  handle pdf_pages (Send_message "   " relay) w
  = (with_session (tab5_session (tab1_session (sidebar_session (session w)))) w,
     inl (Raised (Exn "NameError" "name 'chat_data' is not defined"))).
Proof. by apply step_send_blank. Qed.

(** C2. Save Annotation with a selected text or an annotation text that is
    empty or white space only: the session is exactly as before (so are the
    local annotations and the revision history), no call is made on the
    relay, the page shows the validation warning, and the handler returns. *)
Theorem save_annotation_blank_input_rejected selected_text annotation_text relay w :
  strip selected_text = "" \/ strip annotation_text = "" ->
  let result := save_annotation_button true selected_text annotation_text relay w in
  session (fst result) = session w /\
  wire (fst result) = wire w /\
  screen (fst result)
  = screen w ++ [St_warning "Please enter both the selected text and your annotation."] /\
  snd result = inr ().
Proof.
  intros Hblank. cbv zeta. by rewrite (save_annotation_blank _ _ _ _ Hblank).
Qed.

(** C3, as amended. After any sequence of actions of a new session, the
    annotations stored for a page are as many as the Save Annotation clicks
    that passed validation on that page, and the revision history of every
    stored annotation has exactly one entry: a copy of the creation event of
    a stored annotation with that id, which is the annotation itself whenever
    no other stored annotation has the same id. *)
Theorem annotations_counted_and_history_seeded acts w :
  session w = new_session ->
  let w' := run pdf_pages acts w in
  (forall page,
     length (annotations_at w' page) = creations pdf_pages page acts w) /\
  (forall page a, a ∈ annotations_at w' page ->
     exists id rev,
       a !! "id" = Some (PyStr id) /\
       history_at w' id = Some [rev] /\
       rev !! "id" = Some (PyStr id) /\
       (exists page', rev ∈ annotations_at w' page') /\
       ((forall page' b, b ∈ annotations_at w' page' ->
           b !! "id" = Some (PyStr id) -> b = a) ->
        rev = a)).
Proof.
  intros Hnew. cbv zeta. split.
  - intros page. rewrite run_annotations_length.
    unfold annotations_at at 1. by rewrite Hnew.
  - intros page a Ha.
    destruct (run_history_seeded pdf_pages acts w
                (new_session_history_seeded w Hnew) page a Ha)
      as (id & rev & Hid & Hhist & Hrev & page' & Hin).
    exists id, rev. split_and!; [done|done|done|by exists page'|].
    intros Hunique. by apply (Hunique page').
Qed.

(** C4, as amended. Send Message with a text that is not blank (not empty
    after trimming white space), on a relay that fails: connecting raises, or
    sending the serialized event raises, or closing raises. The chat log ends
    with the event just built, which has the type chat, the clock reading,
    the user name and the trimmed text (the append came first and is not
    undone); the relay was called up to the failing call; the page shows the
    publish error with the message of the exception; and the handler went on
    to its rerun request instead of being left by the exception. *)
Theorem send_message_publish_failure_keeps_event chat_message relay w e :
  strip chat_message <> "" ->
  let event : pydict :=
    {[ "type" := PyStr "chat";
       "timestamp" := PyFloat (clock w (ticks w));
       "user" := PyStr (user_of w);
       "message" := PyStr (strip chat_message) ]} in
  let payload := json_dumps (PyDict event) in
  (connect_raises relay = Some e \/
   connect_raises relay = None /\ send_raises relay payload = Some e \/
   connect_raises relay = None /\ send_raises relay payload = None /\
   close_raises relay = Some e) ->
  let result := handle pdf_pages (Send_message chat_message relay) w in
  remote_chat (fst result) = remote_chat w ++ [event] /\
  wire (fst result) = wire w ++ relay_calls relay payload /\
  screen (fst result)
  = screen w ++ [St_error ("Failed to send chat message to collaboration server: "
                           +:+ exn_str e)] /\
  snd result = inl RerunRequested.
Proof.
  intros Htext. cbv zeta. rewrite chat_event_fields. intros Hfails.
  assert (relay_failure relay
            (json_dumps (PyDict (chat_event (clock w (ticks w)) (user_of w)
                                   chat_message)))
          = Some e) as Hfailure.
  { unfold relay_failure. destruct Hfails as [->|[[-> ->]|(-> & -> & ->)]]; done. }
  apply str_bool_true in Htext. rewrite step_send_sent by done.
  cbv zeta. rewrite Hfailure. done.
Qed.

(** C5. A relay message that decodes to an object whose type is chat: the
    callback appends exactly that object, with all its fields, to the remote
    chat log, and the remote annotation log is as before. *)
Theorem on_message_chat_appended message d w :
  json_loads message = inr (PyDict d) ->
  dict_get d "type" = PyStr "chat" ->
  let w' := fst (on_message message w) in
  remote_chat w' = remote_chat w ++ [d] /\
  collab_annotations (session w') = collab_annotations (session w).
Proof.
  intros Hloads Htype. cbv zeta. by rewrite (on_message_chat _ _ _ Hloads Htype).
Qed.

(** C6. A relay payload that does not decode: the callback reports the error
    on the page, leaves the session (both remote logs included) as it was and
    returns normally; a chat message that follows is appended as usual. *)
Theorem on_message_malformed_dropped message e w :
  json_loads message = inl e ->
  let result := on_message message w in
  session (fst result) = session w /\
  screen (fst result)
  = screen w ++ [St_error ("Error processing collaborative message: " +:+ exn_str e)] /\
  snd result = inr () /\
  (forall next d,
     json_loads next = inr (PyDict d) ->
     dict_get d "type" = PyStr "chat" ->
     remote_chat (fst (on_message next (fst result))) = remote_chat w ++ [d]).
Proof.
  intros Hloads. cbv zeta. rewrite (on_message_malformed _ _ _ Hloads). simpl.
  split_and!; [done..|].
  intros next d Hnext Htype. by rewrite (on_message_chat _ _ _ Hnext Htype).
Qed.

(** C7. A relay message that decodes, with a type that is neither annotation
    nor chat (or no type at all): the session is exactly as before, so both
    remote logs keep their length and their contents. *)
Theorem on_message_unknown_type_ignored message data w :
  json_loads message = inr data ->
  discriminator data <> PyStr "annotation" ->
  discriminator data <> PyStr "chat" ->
  session (fst (on_message message w)) = session w.
Proof.
  intros Hloads Hann Hchat.
  destruct data as [| | | | | |d];
    try (rewrite (on_message_not_dict _ _ _ Hloads); [done|by intros d]).
  by rewrite (on_message_other_dict _ _ _ Hloads Hann Hchat).
Qed.

(** C8. With at least one page and a page index within the document, the
    index stays within [0 <= index < pageCount] after any sequence of
    actions, the navigation clicks among them; Previous Page on the first
    page leaves it at 0 and Next Page on the last page leaves it there. *)
Theorem navigation_clamped acts w :
  1 <= length pdf_pages ->
  in_range pdf_pages (page_of w) ->
  in_range pdf_pages (page_of (run pdf_pages acts w)) /\
  (page_of w = 0%Z -> page_of (step pdf_pages Previous_page w) = 0%Z) /\
  (page_of w = (Z.of_nat (length pdf_pages) - 1)%Z ->
   page_of (step pdf_pages Next_page w) = (Z.of_nat (length pdf_pages) - 1)%Z).
Proof.
  intros _ Hw. split_and!.
  - by apply run_in_range.
  - apply previous_at_first_page.
  - apply next_at_last_page.
Qed.

(** C9, as amended. A Save Annotation click that passes validation stores
    one new annotation on the current page. Its id is the page index, an
    underscore and a clock reading taken at creation: the reading made for
    the id, which comes just before the one stored in the field timestamp,
    so that the two need not be equal. Its page field is the page index plus
    one; and whatever actions follow, the annotation stored at that position
    is still the same, id included. *)
Theorem annotation_id_built_and_kept selected_text annotation_text relay w acts :
  valid_annotation_input selected_text annotation_text = true ->
  let page := page_of w in
  let a := saved_event w selected_text annotation_text in
  let w1 := step pdf_pages (Save_annotation selected_text annotation_text relay) w in
  annotations_at w1 page = annotations_at w page ++ [a] /\
  a !! "id"
  = Some (PyStr (str_int page +:+ "_" +:+ str_float (clock w (ticks w)))) /\
  a !! "timestamp" = Some (PyFloat (clock w (S (ticks w)))) /\
  a !! "page" = Some (PyInt (page + 1)) /\
  annotations_at (run pdf_pages acts w1) page !! length (annotations_at w page)
  = Some a.
Proof.
  intros Hvalid. cbv zeta.
  assert (annotations_at
            (step pdf_pages (Save_annotation selected_text annotation_text relay) w)
            (page_of w)
          = annotations_at w (page_of w) ++ [saved_event w selected_text annotation_text])
    as Hstep.
  { rewrite step_annotations_at. simpl. by rewrite Hvalid, bool_decide_true. }
  split_and!.
  - done.
  - apply saved_event_id.
  - apply saved_event_timestamp.
  - apply saved_event_page.
  - eapply prefix_lookup_Some; [|apply run_annotations_prefix].
    rewrite Hstep. by apply list_lookup_middle.
Qed.

End claims.

(** C10, as amended. For a search term that is not blank (not empty after
    trimming white space) and any pages, the tab reports one match per
    occurrence of the literal term, letter case aside, over all pages and in
    page order. The characters are compared the way the regex engine
    compares them under IGNORECASE, whatever its tables say. *)
Theorem search_reports_every_occurrence `{CaseRule} term pdf_pages w :
  str.strip term <> [] -> search_reports_all term pdf_pages w.
Proof.
  intros Hterm. apply search_reports_all_holds.
  by apply str_nonempty_true.
Qed.

(** * The theorems at concrete inputs *)

(** C2 at a selected text of two spaces. *)
Lemma save_annotation_blank_input_rejected_witness :
  (strip "  " = "" \/ strip "a note" = "") /\
  session (fst (save_annotation_button (H := sample_lib) true "  " "a note"
                  working_relay first_visit))
  = session first_visit.
Proof.
  split; [left; reflexivity|].
  apply (save_annotation_blank_input_rejected (H := sample_lib)
           "  " "a note" working_relay first_visit).
  left; reflexivity.
Defined.

(** C3, as stated, fails when two saves on one page read the same clock
    value: both inputs are valid, both annotations get the id of the first,
    and the one history entry under that id is the second event. *)
Lemma revision_history_collision_counterexample :
  valid_annotation_input "Hello" "first note" = true /\
  valid_annotation_input "Hello" "second note" = true /\
  ~ history_is_creation_copy
      (run (H := sample_lib) two_pages colliding_saves first_visit_stopped).
Proof.
  split; [reflexivity|]. split; [reflexivity|]. intros Hclaim.
  pose (first := saved_event (H := sample_lib) first_visit_stopped "Hello" "first note").
  assert (first ∈ annotations_at
                    (run (H := sample_lib) two_pages colliding_saves first_visit_stopped)
                    0) as Hin.
  { vm_compute. left. }
  destruct (Hclaim 0%Z first Hin) as (id & Hid & Hhist).
  assert (id = "0_1700000000.25") as ->.
  { vm_compute in Hid. congruence. }
  apply (f_equal only_revision_text) in Hhist.
  vm_compute in Hhist. discriminate Hhist.
Qed.

(** C3, as amended, on two saves of a new session. *)
Lemma annotations_counted_and_history_seeded_witness :
  session first_visit = new_session /\
  (forall page,
     length (annotations_at (run (H := sample_lib) two_pages two_saves first_visit) page)
     = creations (H := sample_lib) two_pages page two_saves first_visit).
Proof.
  split; [reflexivity|].
  apply (annotations_counted_and_history_seeded (H := sample_lib)
           two_pages two_saves first_visit).
  reflexivity.
Defined.

(** C4, as stated, fails on a text of three spaces: the text is not empty
    and the relay refuses the connection, and the run ends with an uncaught
    [NameError], with no event in the chat log and nothing reported on the
    page. *)
Lemma send_message_blank_text_counterexample :
  "   " <> "" /\
  connect_raises refusing_relay
  = Some (Exn "ConnectionRefusedError" "[Errno 111] Connection refused") /\
  let result := handle (H := sample_lib) two_pages
                  (Send_message "   " refusing_relay) bob_visit in
  remote_chat (fst result) = [] /\
  screen (fst result) = [] /\
  wire (fst result) = [] /\
  snd result = inl (Raised (Exn "NameError" "name 'chat_data' is not defined")).
Proof. split; [discriminate|]. split; [reflexivity|]. vm_compute. done. Qed.

(** C4, as amended, at the specification's scenario: bob sends hello and the
    relay refuses the connection. *)
Lemma send_message_publish_failure_keeps_event_witness :
  strip "hello" <> "" /\
  remote_chat (fst (handle (H := sample_lib) two_pages
                      (Send_message "hello" refusing_relay) bob_visit))
  = remote_chat bob_visit
    ++ [{[ "type" := PyStr "chat";
           "timestamp" := PyFloat 1700000000.25;
           "user" := PyStr "bob";
           "message" := PyStr "hello" ]}].
Proof.
  split; [discriminate|].
  apply (send_message_publish_failure_keeps_event (H := sample_lib)
           two_pages "hello" refusing_relay bob_visit
           (Exn "ConnectionRefusedError" "[Errno 111] Connection refused")).
  - discriminate.
  - by left.
Defined.

(** C5 at the specification's chat message. *)
Lemma on_message_chat_appended_witness :
  json_loads (PyLib := sample_lib) sample_chat_message = inr (PyDict sample_chat_event) /\
  dict_get sample_chat_event "type" = PyStr "chat" /\
  remote_chat (fst (on_message (H := sample_lib) sample_chat_message first_visit))
  = [sample_chat_event].
Proof.
  split; [reflexivity|]. split; [reflexivity|].
  apply (on_message_chat_appended (H := sample_lib)
           sample_chat_message sample_chat_event first_visit);
    reflexivity.
Defined.

(** C6 at a payload that is no JSON. *)
Lemma on_message_malformed_dropped_witness :
  json_loads (PyLib := sample_lib) "hello?"
  = inl (Exn "JSONDecodeError" "Expecting value: line 1 column 1 (char 0)") /\
  session (fst (on_message (H := sample_lib) "hello?" first_visit))
  = session first_visit.
Proof.
  split; [reflexivity|].
  apply (on_message_malformed_dropped (H := sample_lib) "hello?"
           (Exn "JSONDecodeError" "Expecting value: line 1 column 1 (char 0)")
           first_visit).
  reflexivity.
Defined.

(** C7 at a message of type ping. *)
Lemma on_message_unknown_type_ignored_witness :
  json_loads (PyLib := sample_lib) sample_ping_message = inr (PyDict sample_ping_event) /\
  discriminator (PyDict sample_ping_event) <> PyStr "annotation" /\
  discriminator (PyDict sample_ping_event) <> PyStr "chat" /\
  session (fst (on_message (H := sample_lib) sample_ping_message first_visit))
  = session first_visit.
Proof.
  split; [reflexivity|]. split; [vm_compute; discriminate|].
  split; [vm_compute; discriminate|].
  apply (on_message_unknown_type_ignored (H := sample_lib)
           sample_ping_message (PyDict sample_ping_event) first_visit).
  - reflexivity.
  - vm_compute; discriminate.
  - vm_compute; discriminate.
Defined.

(** C8 on a document of two pages: one click too many in each direction. *)
Lemma navigation_clamped_witness :
  1 <= length two_pages /\
  in_range two_pages (page_of first_visit) /\
  in_range two_pages
    (page_of (run (H := sample_lib) two_pages
                [Next_page; Next_page; Next_page; Previous_page; Previous_page;
                 Previous_page]
                first_visit)).
Proof.
  split; [unfold two_pages; simpl; lia|].
  split; [unfold in_range, two_pages, page_of, first_visit; simpl; lia|].
  apply (navigation_clamped (H := sample_lib) two_pages
           [Next_page; Next_page; Next_page; Previous_page; Previous_page;
            Previous_page]
           first_visit).
  - unfold two_pages; simpl; lia.
  - unfold in_range, two_pages, page_of, first_visit; simpl; lia.
Defined.

(** C9, as stated, fails when the clock moves between the two readings of
    a save: the first annotation of a session gets the id built from the
    reading 1700000000.25, while its timestamp is the next reading,
    1700000000.5. *)
Lemma annotation_id_not_from_timestamp_counterexample :
  valid_annotation_input "Hello" "a greeting" = true /\
  let a := saved_event (H := sample_lib) first_visit "Hello" "a greeting" in
  annotations_at
    (step (H := sample_lib) two_pages
       (Save_annotation "Hello" "a greeting" working_relay) first_visit) 0
  = [a] /\
  a !! "id" = Some (PyStr "0_1700000000.25") /\
  a !! "timestamp" = Some (PyFloat 1700000000.5) /\
  ~ id_from_timestamp (H := sample_lib) a 0.
Proof.
  split; [reflexivity|]. cbv zeta. split_and!.
  - vm_compute. reflexivity.
  - vm_compute. reflexivity.
  - vm_compute. reflexivity.
  - intros (t & Ht & Hid). vm_compute in Ht. injection Ht as <-.
    vm_compute in Hid. discriminate Hid.
Qed.

(** C9, as amended, on the first save of a session, followed by more
    actions. *)
Lemma annotation_id_built_and_kept_witness :
  valid_annotation_input "Hello" "a greeting" = true /\
  saved_event (H := sample_lib) first_visit "Hello" "a greeting" !! "id"
  = Some (PyStr ("0" +:+ "_" +:+ "1700000000.25")).
Proof.
  split; [reflexivity|].
  apply (annotation_id_built_and_kept (H := sample_lib) two_pages
           "Hello" "a greeting" working_relay first_visit
           [Next_page; Save_annotation "the end" "closing" working_relay]).
  reflexivity.
Defined.

(** C10, as stated, fails on a term that is one space: the term is not empty
    and occurs once in the page, and the tab reports nothing. *)
Lemma search_blank_term_counterexample :
  codes " " <> [] /\
  total_occurrences (H := sample_case) (codes " ") [codes "a b"] = 1 /\
  ~ search_reports_all (H := sample_case) (codes " ") [codes "a b"] first_visit.
Proof.
  split; [discriminate|]. split; [reflexivity|].
  intros (matches & Hscreen & _).
  rewrite search_tab_blank in Hscreen by reflexivity.
  destruct matches; discriminate Hscreen.
Qed.

(** C10, as amended, on a term with a capital. *)
Lemma search_reports_every_occurrence_witness :
  str.strip (codes "He") <> [] /\
  search_reports_all (H := sample_case) (codes "He") two_texts first_visit.
Proof.
  split; [discriminate|].
  apply (search_reports_every_occurrence (H := sample_case) (codes "He") two_texts
           first_visit).
  discriminate.
Defined.

(** * Further properties of the script *)

Section stripping.

Lemma rstrip_idempotent s : rstrip (rstrip s) = rstrip s.
Proof.
  induction s as [|c s IH]; simpl; [done|].
  destruct (rstrip s) as [|c' kept] eqn:Hs.
  - destruct (isspace c) eqn:Hc; simpl; [done|]. by rewrite Hc.
  - simpl. simpl in IH. by rewrite IH.
Qed.

Lemma lstrip_head s :
  lstrip s = "" \/ exists c rest, lstrip s = String c rest /\ isspace c = false.
Proof.
  induction s as [|c s IH]; simpl; [by left|].
  destruct (isspace c) eqn:Hc; [done|]. right. by exists c, s.
Qed.

Lemma rstrip_keeps_head c rest :
  isspace c = false -> exists kept, rstrip (String c rest) = String c kept.
Proof.
  intros Hc. simpl. destruct (rstrip rest) as [|c' kept].
  - rewrite Hc. by exists "".
  - by exists (String c' kept).
Qed.

(** Stripping twice is stripping once. *)
Lemma strip_idempotent s : strip (strip s) = strip s.
Proof.
  unfold strip. destruct (lstrip_head s) as [->|(c & rest & -> & Hc)]; [done|].
  destruct (rstrip_keeps_head c rest Hc) as [kept Hkept].
  rewrite Hkept. simpl lstrip. rewrite Hc. rewrite <- Hkept.
  apply rstrip_idempotent.
Qed.

(** A string that starts with a character that is no white space is not
    blank. *)
Lemma strip_head_not_blank c rest :
  isspace c = false -> strip (String c rest) <> "".
Proof.
  intros Hc Hblank. apply strip_blank_iff in Hblank.
  inversion Hblank as [|? ? Hc' _]; subst. congruence.
Qed.

End stripping.

Section extraction.

Lemma extract_pages_run images texts i w :
  extract_pages images (inr <$> texts) i w
  = (w, inr (resolve_pages images texts i)).
Proof.
  revert i. induction texts as [|text rest IH]; intros i; simpl; [done|].
  unfold mbind, M_bind. simpl. by rewrite IH.
Qed.

Lemma extract_pages_raise images texts e rest i w :
  extract_pages images ((inr <$> texts) ++ inl e :: rest) i w
  = (w, inl (Raised e)).
Proof.
  revert i. induction texts as [|text texts IH]; intros i; simpl; [done|].
  unfold mbind, M_bind. simpl. by rewrite IH.
Qed.

Lemma pages_split (pages : list (exn + option string)) :
  (exists texts, pages = inr <$> texts) \/
  (exists texts e rest, pages = (inr <$> texts) ++ inl e :: rest).
Proof.
  induction pages as [|[e|text] pages IH].
  - left. by exists [].
  - right. by exists [], e, pages.
  - destruct IH as [[texts ->]|(texts & e & rest & ->)].
    + left. by exists (text :: texts).
    + right. by exists (text :: texts), e, rest.
Qed.

(** The conversion to images never ends the extraction. *)
Lemma convert_images_run file w :
  try_except (lift_result (pdf_images file))
    (fun _ =>
       st_warning "OCR conversion failed; make sure Poppler is installed properly.";;
       mret []) w
  = (World (session w) (screen w ++ ocr_warning file) (wire w) (clock w) (ticks w),
     inr (ocr_images file)).
Proof.
  unfold try_except, ocr_warning, ocr_images.
  destruct (pdf_images file); simpl; [done|].
  rewrite app_nil_r. by destruct w.
Qed.

(** The extraction when every page can be read. *)
Lemma extract_pdf_text_run file texts w :
  pdf_reader file = inr (inr <$> texts) ->
  extract_pdf_text file w
  = (World (session w) (screen w ++ ocr_warning file) (wire w) (clock w) (ticks w),
     inr (resolve_pages (ocr_images file) texts 0, true)).
Proof.
  intros Hreader. unfold extract_pdf_text, try_except at 1.
  unfold mbind at 1. unfold M_bind. rewrite Hreader. simpl.
  unfold mbind at 1. unfold M_bind. rewrite convert_images_run.
  unfold mbind at 1. unfold M_bind. rewrite extract_pages_run. reflexivity.
Qed.

(** The extraction when reading fails. *)
Lemma extract_pdf_text_fails file e w :
  reading_fails file e ->
  exists shown,
    extract_pdf_text file w
    = (World (session w) (screen w ++ shown ++ [St_error ("PDF Error: " +:+ exn_str e)])
             (wire w) (clock w) (ticks w),
       inr (["Error processing PDF: " +:+ exn_str e], false)).
Proof.
  intros [Hreader|(texts & rest & Hreader)].
  - exists []. unfold extract_pdf_text, try_except at 1.
    unfold mbind at 1. unfold M_bind. rewrite Hreader. reflexivity.
  - exists (ocr_warning file). unfold extract_pdf_text, try_except at 1.
    unfold mbind at 1. unfold M_bind. rewrite Hreader. simpl.
    unfold mbind at 1. unfold M_bind. rewrite convert_images_run.
    unfold mbind at 1. unfold M_bind. rewrite extract_pages_raise. simpl.
    unfold mbind, M_bind, st_error, st_notice, mret, M_ret. simpl.
    by rewrite <- app_assoc.
Qed.

Lemma resolve_pages_length images texts i :
  length (resolve_pages images texts i) = length texts.
Proof. revert i. induction texts; intros i; simpl; [done|]. by rewrite IHtexts. Qed.

Lemma resolve_pages_lookup images texts k i :
  resolve_pages images texts k !! i
  = resolve_page_text images (k + i) <$> texts !! i.
Proof.
  revert k i. induction texts as [|text rest IH]; intros k i; simpl; [done|].
  destruct i as [|i]; simpl.
  - by rewrite Nat.add_0_r.
  - rewrite IH. by rewrite Nat.add_succ_r.
Qed.

Lemma no_text_notice_not_blank i : strip (no_text_notice i) <> "".
Proof. unfold no_text_notice. simpl. by apply strip_head_not_blank. Qed.

Lemma ocr_error_notice_not_blank i e : strip (ocr_error_notice i e) <> "".
Proof. unfold ocr_error_notice. simpl. by apply strip_head_not_blank. Qed.

Lemma resolve_page_text_not_blank images i text :
  strip (resolve_page_text images i text) <> "".
Proof.
  unfold resolve_page_text.
  assert (strip (if has_image images i
                 then match images !! i with
                      | Some (inr ocr_text) =>
                          if str_bool (strip ocr_text) then ocr_text
                          else no_text_notice i
                      | Some (inl e) => ocr_error_notice i e
                      | None => no_text_notice i
                      end
                 else no_text_notice i) <> "") as Hfallback.
  { destruct (has_image images i); [|apply no_text_notice_not_blank].
    destruct (images !! i) as [[e|ocr_text]|];
      [apply ocr_error_notice_not_blank| |apply no_text_notice_not_blank].
    destruct (str_bool (strip ocr_text)) eqn:Hocr; [|apply no_text_notice_not_blank].
    by apply str_bool_true. }
  destruct text as [s|]; [|done].
  destruct (str_bool s && str_bool (strip s)) eqn:Hs; [|done].
  apply andb_prop in Hs as [_ Hs]. by apply str_bool_true.
Qed.

Lemma resolve_page_text_kept images i s :
  strip s <> "" -> resolve_page_text images i (Some s) = s.
Proof.
  intros Hs. unfold resolve_page_text.
  assert (str_bool (strip s) = true) as -> by by apply str_bool_true.
  assert (str_bool s = true) as ->; [|done].
  destruct s; [|done]. by destruct Hs.
Qed.

Lemma resolve_page_text_lacking images i text :
  lacks_text text ->
  resolve_page_text images i text
  = if has_image images i
    then match images !! i with
         | Some (inr ocr_text) =>
             if str_bool (strip ocr_text) then ocr_text else no_text_notice i
         | Some (inl e) => ocr_error_notice i e
         | None => no_text_notice i
         end
    else no_text_notice i.
Proof.
  intros Hlack. unfold resolve_page_text. destruct text as [s|]; [|done].
  simpl in Hlack. rewrite Hlack. simpl. by rewrite andb_false_r.
Qed.

End extraction.

(** * The sidebar, the listener flag, the summary *)

Section profile.

(** The sidebar on a session whose user name is still empty. *)
Lemma sidebar_profile_unset username_input clicked w :
  user_of w = "" ->
  sidebar_profile username_input clicked w
  = if clicked then
      if str_bool (strip username_input) then
        (noticed (St_success ("Username set to '" +:+ strip username_input +:+ "'"))
           (with_session (set_username (strip username_input) (session w)) w),
         inr ())
      else
        (noticed (St_error "Please enter a valid username.")
           (with_session (set_username "" (session w)) w),
         inr ())
    else (with_session (set_username "" (session w)) w, inr ()).
Proof.
  intros Hname. unfold user_of in Hname. unfold sidebar_profile.
  destruct w as [[u cp an rh ca cc] scr wr clk tk]. simpl in Hname.
  destruct u as [name|]; simpl in Hname; subst;
    unfold mbind, M_bind, state_has, state_get, state_set, unless, mret, M_ret; simpl;
    destruct clicked; try reflexivity;
    destruct (str_bool (strip username_input)); reflexivity.
Qed.

(** The sidebar on a session that has a user name. *)
Lemma sidebar_profile_set username_input clicked w :
  user_of w <> "" ->
  sidebar_profile username_input clicked w
  = (noticed (St_info ("Logged in as: **" +:+ user_of w +:+ "**")) w, inr ()).
Proof.
  intros Hname. unfold user_of in *. unfold sidebar_profile.
  destruct w as [[u cp an rh ca cc] scr wr clk tk]. simpl in *.
  destruct u as [name|]; simpl in Hname; [|done].
  unfold mbind, M_bind, state_has, state_get, state_set, unless, mret, M_ret. simpl.
  destruct (String.eqb_spec name ""); [done|]. reflexivity.
Qed.

End profile.

(** X1. With the user name still empty, Set Username on an input that is not
    blank stores the input stripped of surrounding white space: the stored
    name is not empty and stripping it again changes nothing. *)
Theorem username_stored_stripped username_input w :
  user_of w = "" ->
  strip username_input <> "" ->
  let w' := fst (sidebar_profile username_input true w) in
  user_of w' = strip username_input /\
  settled_name (user_of w') /\
  screen w' = screen w ++ [St_success ("Username set to '" +:+ strip username_input +:+ "'")].
Proof.
  intros Hname Hinput. cbv zeta. rewrite sidebar_profile_unset by done.
  apply str_bool_true in Hinput as Hbool. rewrite Hbool. simpl.
  split_and!; [done| |done].
  split; [done|apply strip_idempotent].
Qed.

Lemma username_stored_stripped_witness :
  user_of anonymous_visit = "" /\
  strip "  bob " <> "" /\
  user_of (fst (sidebar_profile "  bob " true anonymous_visit)) = "bob".
Proof.
  split; [reflexivity|]. split; [discriminate|].
  apply (username_stored_stripped "  bob " anonymous_visit);
    [reflexivity|discriminate].
Defined.

(** X2. With the user name still empty, Set Username on a blank input is
    refused: the name stays empty and the page shows the error. *)
Theorem username_blank_refused username_input w :
  user_of w = "" ->
  strip username_input = "" ->
  let w' := fst (sidebar_profile username_input true w) in
  user_of w' = "" /\
  screen w' = screen w ++ [St_error "Please enter a valid username."].
Proof.
  intros Hname Hinput. cbv zeta. rewrite sidebar_profile_unset by done.
  by rewrite Hinput.
Qed.

Lemma username_blank_refused_witness :
  user_of anonymous_visit = "" /\
  strip "   " = "" /\
  user_of (fst (sidebar_profile "   " true anonymous_visit)) = "".
Proof.
  split; [reflexivity|]. split; [reflexivity|].
  apply (username_blank_refused "   " anonymous_visit); reflexivity.
Defined.

(** X3. A user name that is set is never changed by the sidebar: whatever is
    typed and whether or not the button is clicked, the session stays as it
    is and the page shows who is logged in. *)
Theorem username_write_once username_input clicked w :
  user_of w <> "" ->
  let w' := fst (sidebar_profile username_input clicked w) in
  session w' = session w /\
  screen w' = screen w ++ [St_info ("Logged in as: **" +:+ user_of w +:+ "**")].
Proof.
  intros Hname. cbv zeta. by rewrite sidebar_profile_set.
Qed.

Lemma username_write_once_witness :
  user_of bob_visit <> "" /\
  session (fst (sidebar_profile "mallory" true bob_visit)) = session bob_visit.
Proof.
  split; [discriminate|].
  apply (username_write_once "mallory" true bob_visit). discriminate.
Defined.

(** * Text extraction *)

(** X4. When every page of the PDF can be read, the extraction succeeds
    with exactly one text per page, whatever the OCR does (a failed
    conversion or a failing OCR of a page never fails the extraction), and it
    leaves the session alone. *)
Theorem extract_pdf_text_one_text_per_page file texts w :
  pdf_reader file = inr (inr <$> texts) ->
  exists pages_text,
    snd (extract_pdf_text file w) = inr (pages_text, true) /\
    length pages_text = length texts /\
    session (fst (extract_pdf_text file w)) = session w.
Proof.
  intros Hreader. rewrite (extract_pdf_text_run _ _ _ Hreader). simpl.
  eexists. split_and!; [done| |done]. apply resolve_pages_length.
Qed.

Lemma extract_pdf_text_one_text_per_page_witness :
  pdf_reader sample_upload = inr (inr <$> [Some "Chapter one"; None; Some "   "]) /\
  exists pages_text,
    snd (extract_pdf_text sample_upload first_visit) = inr (pages_text, true) /\
    length pages_text = 3 /\
    session (fst (extract_pdf_text sample_upload first_visit)) = session first_visit.
Proof.
  split; [reflexivity|].
  apply (extract_pdf_text_one_text_per_page sample_upload
           [Some "Chapter one"; None; Some "   "] first_visit).
  reflexivity.
Defined.

(** X5. No text returned by a successful extraction is blank: a page
    without text of its own gets the OCR text, the OCR error or the
    placeholder, none of which strips to the empty string. *)
Theorem extract_pdf_text_no_blank_page file texts w pages_text i text :
  pdf_reader file = inr (inr <$> texts) ->
  snd (extract_pdf_text file w) = inr (pages_text, true) ->
  pages_text !! i = Some text ->
  strip text <> "".
Proof.
  intros Hreader. rewrite (extract_pdf_text_run _ _ _ Hreader). simpl.
  intros [= <-]. rewrite resolve_pages_lookup.
  destruct (texts !! i); simpl; [|done].
  intros [= <-]. apply resolve_page_text_not_blank.
Qed.

Lemma extract_pdf_text_no_blank_page_witness :
  pdf_reader sample_upload = inr (inr <$> [Some "Chapter one"; None; Some "   "]) /\
  snd (extract_pdf_text sample_upload first_visit)
  = inr (["Chapter one"; "scanned words";
          "Error during OCR on Page 3: no engine"], true) /\
  strip "Error during OCR on Page 3: no engine" <> "".
Proof.
  split; [reflexivity|]. split; [reflexivity|].
  apply (extract_pdf_text_no_blank_page sample_upload
           [Some "Chapter one"; None; Some "   "] first_visit
           ["Chapter one"; "scanned words"; "Error during OCR on Page 3: no engine"]
           2 "Error during OCR on Page 3: no engine");
    reflexivity.
Defined.

(** X6. A page whose extracted text is not blank is returned as it was
    extracted, at its own index; the OCR has no say on it. *)
Theorem extract_pdf_text_keeps_text file texts w i text :
  pdf_reader file = inr (inr <$> texts) ->
  texts !! i = Some (Some text) ->
  strip text <> "" ->
  exists pages_text,
    snd (extract_pdf_text file w) = inr (pages_text, true) /\
    pages_text !! i = Some text.
Proof.
  intros Hreader Hpage Htext. rewrite (extract_pdf_text_run _ _ _ Hreader). simpl.
  eexists. split; [done|].
  rewrite resolve_pages_lookup, Hpage. unfold fmap, option_fmap, option_map.
  by rewrite resolve_page_text_kept.
Qed.

Lemma extract_pdf_text_keeps_text_witness :
  pdf_reader sample_upload = inr (inr <$> [Some "Chapter one"; None; Some "   "]) /\
  [Some "Chapter one"; None; Some "   "] !! 0 = Some (Some "Chapter one") /\
  strip "Chapter one" <> "" /\
  exists pages_text,
    snd (extract_pdf_text sample_upload first_visit) = inr (pages_text, true) /\
    pages_text !! 0 = Some "Chapter one".
Proof.
  split; [reflexivity|]. split; [reflexivity|]. split; [discriminate|].
  apply (extract_pdf_text_keeps_text sample_upload
           [Some "Chapter one"; None; Some "   "] first_visit 0 "Chapter one");
    [reflexivity|reflexivity|discriminate].
Defined.

(** X7. When the PDF cannot be opened, or [extract_text] raises on a page,
    the extraction does not raise: it shows the error and returns the flag
    False with a single text that carries the message of the first
    exception; the texts of the pages read before it are dropped. *)
Theorem extract_pdf_text_failure_reported file e w :
  reading_fails file e ->
  snd (extract_pdf_text file w)
  = inr (["Error processing PDF: " +:+ exn_str e], false) /\
  last (screen (fst (extract_pdf_text file w)))
  = Some (St_error ("PDF Error: " +:+ exn_str e)) /\
  session (fst (extract_pdf_text file w)) = session w.
Proof.
  intros Hfails. destruct (extract_pdf_text_fails file e w Hfails) as [shown ->].
  simpl. split_and!; [done| |done].
  by rewrite app_assoc, last_snoc.
Qed.

Lemma extract_pdf_text_failure_reported_witness :
  reading_fails broken_upload (Exn "PdfReadError" "EOF marker not found") /\
  snd (extract_pdf_text broken_upload first_visit)
  = inr (["Error processing PDF: EOF marker not found"], false).
Proof.
  split; [by left|].
  apply (extract_pdf_text_failure_reported broken_upload
           (Exn "PdfReadError" "EOF marker not found") first_visit).
  by left.
Defined.

(** X8. When the conversion of the PDF to images raises, the page shows the
    OCR warning once and every page without text of its own gets the
    placeholder with its page number counted from 1. *)
Theorem extract_pdf_text_without_ocr file e texts w i text :
  pdf_images file = inl e ->
  pdf_reader file = inr (inr <$> texts) ->
  texts !! i = Some text ->
  lacks_text text ->
  exists pages_text,
    snd (extract_pdf_text file w) = inr (pages_text, true) /\
    pages_text !! i
    = Some ("Page " +:+ str_int (Z.of_nat i + 1) +:+ " has no extractable text.") /\
    screen (fst (extract_pdf_text file w))
    = screen w
      ++ [St_warning "OCR conversion failed; make sure Poppler is installed properly."].
Proof.
  intros Himages Hreader Hpage Hlack.
  rewrite (extract_pdf_text_run _ _ _ Hreader). simpl.
  unfold ocr_images, ocr_warning. rewrite Himages.
  eexists. split_and!; [done| |done].
  rewrite resolve_pages_lookup, Hpage. unfold fmap, option_fmap, option_map.
  by rewrite resolve_page_text_lacking.
Qed.

Lemma extract_pdf_text_without_ocr_witness :
  pdf_images sample_upload_no_ocr
  = inl (Exn "PDFInfoNotInstalledError" "Unable to get page count.") /\
  lacks_text (Some "   ") /\
  exists pages_text,
    snd (extract_pdf_text sample_upload_no_ocr first_visit) = inr (pages_text, true) /\
    pages_text !! 2 = Some "Page 3 has no extractable text." /\
    screen (fst (extract_pdf_text sample_upload_no_ocr first_visit))
    = [St_warning "OCR conversion failed; make sure Poppler is installed properly."].
Proof.
  split; [reflexivity|]. split; [reflexivity|].
  apply (extract_pdf_text_without_ocr sample_upload_no_ocr
           (Exn "PDFInfoNotInstalledError" "Unable to get page count.")
           [Some "Chapter one"; None; Some "   "] first_visit 2 (Some "   "));
    reflexivity.
Defined.

(** X9. The extraction never raises, and its flag tells the two outcomes
    apart: True comes with one text per page of the PDF, False with exactly
    one text, the error message. *)
Theorem extract_pdf_text_never_raises file w :
  exists pages_text flag,
    snd (extract_pdf_text file w) = inr (pages_text, flag) /\
    (flag = false -> length pages_text = 1) /\
    (flag = true ->
     exists pages, pdf_reader file = inr pages /\ length pages_text = length pages).
Proof.
  destruct (pdf_reader file) as [e|pages] eqn:Hreader.
  - destruct (extract_pdf_text_fails file e w) as [shown ->]; [by left|].
    simpl. eexists _, false. by split_and!.
  - destruct (pages_split pages) as [[texts ->]|(texts & e & rest & ->)].
    + rewrite (extract_pdf_text_run _ _ _ Hreader). simpl.
      eexists _, true. split_and!; [done|done|].
      intros _. eexists. split; [done|].
      by rewrite resolve_pages_length, length_fmap.
    + destruct (extract_pdf_text_fails file e w) as [shown ->].
      { right. by exists texts, rest. }
      simpl. eexists _, false. by split_and!.
Qed.

Lemma has_image_lookup (images : list (exn + string)) i image :
  images !! i = Some image -> has_image images i = true.
Proof.
  intros Hi. apply lookup_lt_Some in Hi as Hlt. unfold has_image.
  destruct images; simpl in *; [lia|]. by apply Nat.ltb_lt.
Qed.

(** X30. A page without text of its own whose image the OCR reads gets the
    OCR text of the image at the same index, as the OCR returned it. *)
Theorem extract_pdf_text_falls_back_to_ocr file texts images w i text ocr_text :
  pdf_reader file = inr (inr <$> texts) ->
  pdf_images file = inr images ->
  texts !! i = Some text ->
  lacks_text text ->
  images !! i = Some (inr ocr_text) ->
  strip ocr_text <> "" ->
  exists pages_text,
    snd (extract_pdf_text file w) = inr (pages_text, true) /\
    pages_text !! i = Some ocr_text.
Proof.
  intros Hreader Himages Hpage Hlack Himage Hocr.
  rewrite (extract_pdf_text_run _ _ _ Hreader). simpl.
  unfold ocr_images. rewrite Himages.
  eexists. split; [done|].
  rewrite resolve_pages_lookup, Hpage. unfold fmap, option_fmap, option_map.
  rewrite resolve_page_text_lacking by done. simpl.
  rewrite (has_image_lookup _ _ _ Himage), Himage.
  apply str_bool_true in Hocr. by rewrite Hocr.
Qed.

Lemma extract_pdf_text_falls_back_to_ocr_witness :
  lacks_text None /\
  strip "scanned words" <> "" /\
  exists pages_text,
    snd (extract_pdf_text sample_upload first_visit) = inr (pages_text, true) /\
    pages_text !! 1 = Some "scanned words".
Proof.
  split; [exact I|]. split; [discriminate|].
  apply (extract_pdf_text_falls_back_to_ocr sample_upload
           [Some "Chapter one"; None; Some "   "]
           [inr "ignored"; inr "scanned words";
            inl (Exn "TesseractError" "no engine")]
           first_visit 1 None "scanned words");
    [reflexivity|reflexivity|reflexivity|exact I|reflexivity|discriminate].
Defined.

(** * The viewer, the listener flag, the summary, navigation *)

Section viewer.
Context `{PyLib}.
Variable pdf_pages : list string.

Lemma list_getitem_in_range {A} (l : list A) (i : Z) :
  (0 <= i < Z.of_nat (length l))%Z ->
  exists x, l !! Z.to_nat i = Some x /\ forall w, list_getitem l i w = (w, inr x).
Proof.
  intros Hi. unfold list_getitem.
  destruct (i <? 0)%Z eqn:Hneg; [apply Z.ltb_lt in Hneg; lia|]. rewrite Hneg.
  destruct (l !! Z.to_nat i) as [x|] eqn:Hx; [by exists x|].
  apply lookup_ge_None in Hx. lia.
Qed.

Lemma list_getitem_empty {A} (i : Z) w :
  list_getitem (@nil A) i w
  = (w, inl (Raised (Exn "IndexError" "list index out of range"))).
Proof.
  unfold list_getitem. simpl. rewrite Z.add_0_r.
  destruct (i <? 0)%Z eqn:Hneg; [by rewrite Hneg|by rewrite Hneg].
Qed.

Lemma next_clicks_page k w :
  in_range pdf_pages (page_of w) ->
  page_of (run pdf_pages (replicate k Next_page) w)
  = Z.min (page_of w + Z.of_nat k) (Z.of_nat (length pdf_pages) - 1).
Proof.
  revert w. induction k as [|k IH]; intros w Hw.
  - simpl. unfold in_range in Hw. lia.
  - simpl replicate. simpl run. rewrite IH by by apply step_in_range.
    rewrite step_page_of. unfold in_range in Hw.
    destruct (page_of w <? Z.of_nat (length pdf_pages) - 1)%Z eqn:Hlt;
      [apply Z.ltb_lt in Hlt|apply Z.ltb_ge in Hlt]; lia.
Qed.

Lemma previous_clicks_page k w :
  in_range pdf_pages (page_of w) ->
  page_of (run pdf_pages (replicate k Previous_page) w)
  = Z.max (page_of w - Z.of_nat k) 0.
Proof.
  revert w. induction k as [|k IH]; intros w Hw.
  - simpl. unfold in_range in Hw. lia.
  - simpl replicate. simpl run. rewrite IH by by apply step_in_range.
    rewrite step_page_of. unfold in_range in Hw.
    destruct (0 <? page_of w)%Z eqn:Hlt;
      [apply Z.ltb_lt in Hlt|apply Z.ltb_ge in Hlt]; lia.
Qed.

(** X10. From a page index within the document, after any sequence of
    actions the viewer finds the text of the current page: the indexing of
    line 341 does not raise and yields the page at the current index. *)
Theorem viewer_finds_current_page acts w :
  in_range pdf_pages (page_of w) ->
  let w' := run pdf_pages acts w in
  exists text,
    snd ((sidebar_init;; tab1_init;; current_page_text pdf_pages) w') = inr text /\
    pdf_pages !! Z.to_nat (page_of w') = Some text.
Proof.
  intros Hw. cbv zeta. rewrite init_blocks_run.
  destruct (list_getitem_in_range pdf_pages (page_of (run pdf_pages acts w)))
    as (text & Hlookup & Hget); [by apply run_in_range|].
  exists text. split; [|done].
  unfold current_page_text, mbind, M_bind, state_get. simpl.
  fold (page_of (run pdf_pages acts w)). by rewrite Hget.
Qed.

(** X14. From a page index within the document, k clicks on Next Page lead
    to page index + k, capped at the last page, and k clicks on Previous
    Page lead to page index - k, capped at the first page. *)
Theorem navigation_clicks_add_up k w :
  in_range pdf_pages (page_of w) ->
  page_of (run pdf_pages (replicate k Next_page) w)
  = Z.min (page_of w + Z.of_nat k) (Z.of_nat (length pdf_pages) - 1) /\
  page_of (run pdf_pages (replicate k Previous_page) w)
  = Z.max (page_of w - Z.of_nat k) 0.
Proof.
  intros Hw. split; [by apply next_clicks_page|by apply previous_clicks_page].
Qed.

(** X15. Next Page followed by Previous Page returns to the page it
    started from, unless it started on the last page; Previous Page followed
    by Next Page returns unless it started on the first page. *)
Theorem navigation_round_trip w :
  in_range pdf_pages (page_of w) ->
  (page_of w < Z.of_nat (length pdf_pages) - 1 ->
   page_of (run pdf_pages [Next_page; Previous_page] w) = page_of w)%Z /\
  (0 < page_of w ->
   page_of (run pdf_pages [Previous_page; Next_page] w) = page_of w)%Z.
Proof.
  intros Hw. unfold in_range in Hw. simpl. rewrite !step_page_of. split; intros Hp.
  - apply Z.ltb_lt in Hp as Hp'. rewrite Hp'.
    destruct (0 <? page_of w + 1)%Z eqn:Hlt;
      [lia|apply Z.ltb_ge in Hlt; lia].
  - apply Z.ltb_lt in Hp as Hp'. rewrite Hp'.
    destruct (page_of w - 1 <? Z.of_nat (length pdf_pages) - 1)%Z eqn:Hlt;
      [lia|apply Z.ltb_ge in Hlt; lia].
Qed.

End viewer.

Lemma viewer_finds_current_page_witness :
  in_range two_pages (page_of first_visit) /\
  exists text,
    snd ((sidebar_init;; tab1_init;; current_page_text two_pages)
           (run (H := sample_lib) two_pages [Next_page; Next_page] first_visit))
    = inr text /\
    two_pages !! Z.to_nat
      (page_of (run (H := sample_lib) two_pages [Next_page; Next_page] first_visit))
    = Some text.
Proof.
  split; [unfold in_range, two_pages, page_of, first_visit; simpl; lia|].
  apply (viewer_finds_current_page (H := sample_lib) two_pages
           [Next_page; Next_page] first_visit).
  unfold in_range, two_pages, page_of, first_visit; simpl; lia.
Defined.

Lemma navigation_clicks_add_up_witness :
  in_range two_pages (page_of first_visit) /\
  page_of (run (H := sample_lib) two_pages (replicate 5 Next_page) first_visit) = 1%Z.
Proof.
  split; [unfold in_range, two_pages, page_of, first_visit; simpl; lia|].
  apply (navigation_clicks_add_up (H := sample_lib) two_pages 5 first_visit).
  unfold in_range, two_pages, page_of, first_visit; simpl; lia.
Defined.

Lemma navigation_round_trip_witness :
  in_range two_pages (page_of first_visit) /\
  ((page_of first_visit < Z.of_nat (length two_pages) - 1)%Z ->
   page_of (run (H := sample_lib) two_pages [Next_page; Previous_page] first_visit)
   = page_of first_visit).
Proof.
  split; [unfold in_range, two_pages, page_of, first_visit; simpl; lia|].
  apply (navigation_round_trip (H := sample_lib) two_pages first_visit).
  unfold in_range, two_pages, page_of, first_visit; simpl; lia.
Defined.

(** X11. A PDF without pages is extracted as a success with an empty list
    of texts, and on an empty list the viewer's indexing of line 341 raises
    IndexError in every session. *)
Theorem empty_document_breaks_viewer file w w' :
  pdf_reader file = inr [] ->
  snd (extract_pdf_text file w) = inr ([], true) /\
  snd ((sidebar_init;; tab1_init;; current_page_text []) w')
  = inl (Raised (Exn "IndexError" "list index out of range")).
Proof.
  intros Hreader. split.
  - by rewrite (extract_pdf_text_run file [] w Hreader).
  - rewrite init_blocks_run. unfold current_page_text, mbind, M_bind, state_get.
    simpl. by rewrite list_getitem_empty.
Qed.

Lemma empty_document_breaks_viewer_witness :
  pdf_reader empty_upload = inr [] /\
  snd (extract_pdf_text empty_upload first_visit) = inr ([], true).
Proof.
  split; [reflexivity|].
  apply (empty_document_breaks_viewer empty_upload first_visit first_visit).
  reflexivity.
Defined.

Lemma start_ws_client_runs_started runs s flag :
  ws_client_started s = Some flag -> start_ws_client_runs runs s = s.
Proof.
  intros Hflag. induction runs as [|k IH]; simpl; [done|].
  unfold start_ws_client. by rewrite Hflag.
Qed.

(** X12. However many times the script runs with a file uploaded, one
    listener thread is started in a session: the first run starts it and sets
    the flag, every later run finds the flag and starts nothing. *)
Theorem listener_started_once runs :
  1 <= runs ->
  let s := start_ws_client_runs runs (Listener None 0) in
  listener_threads s = 1 /\ ws_client_started s = Some true.
Proof.
  intros Hruns. destruct runs as [|k]; [lia|]. cbv zeta.
  change (start_ws_client_runs (S k) (Listener None 0))
    with (start_ws_client_runs k (Listener (Some true) 1)).
  by rewrite (start_ws_client_runs_started k _ true).
Qed.

Lemma listener_started_once_witness :
  1 <= 4 /\ listener_threads (start_ws_client_runs 4 (Listener None 0)) = 1.
Proof.
  split; [lia|]. apply (listener_started_once 4). lia.
Defined.

(** * Summaries *)

(** X13. Once the secrets lookup has returned, [summarize_text] is left by
    an exception in one case only: a key is configured and the name [openai]
    is unbound because its import failed, and then line 114, which comes
    before the [try], raises [NameError] with nothing shown. In every other
    case it returns, and what it returns has no white space around it: the
    stripped content of the answer, or one of the two fixed messages when the
    key is missing or when the call or the reading of its answer fails. The
    session is never touched. *)
Theorem summarize_text_raises_only_without_openai api_key openai text w :
  let result := summarize_text api_key openai text w in
  session (fst result) = session w /\
  match openai with
  | None =>
      if secret_set api_key
      then result = (w, inl (Raised (Exn "NameError" "name 'openai' is not defined")))
      else snd result = inr "Summarization unavailable."
  | Some _ => exists summary, snd result = inr summary /\ strip summary = summary
  end.
Proof.
  cbv zeta. unfold summarize_text.
  destruct (secret_set api_key), openai as [create|]; simpl.
  - unfold try_except, mbind, M_bind, lift_result, subscript_key, subscript_first,
      strip_method, list_getitem, raise, st_error, st_notice, mret, M_ret.
    destruct (create (summary_request text)) as [e|response]; simpl.
    { split; [done|]. by eexists. }
    repeat (case_match; simplify_eq/=);
      (split; [reflexivity|]); eexists; (split; [reflexivity|]);
      first [reflexivity|apply strip_idempotent].
  - done.
  - split; [done|]. by eexists.
  - done.
Qed.

(** X27. When the API answers in the expected shape, the summary is the
    content of the first choice, stripped, and the page shows nothing new. *)
Theorem summarize_text_reads_first_choice api_key create text w
    response choice rest message content :
  (exists k, api_key = Some k /\ k <> "") ->
  create (summary_request text) = inr (PyDict response) ->
  response !! "choices" = Some (PyList (PyDict choice :: rest)) ->
  choice !! "message" = Some (PyDict message) ->
  message !! "content" = Some (PyStr content) ->
  summarize_text api_key (Some create) text w = (w, inr (strip content)).
Proof.
  intros (k & -> & Hk) Hcreate Hchoices Hmessage Hcontent.
  unfold summarize_text, secret_set. apply str_bool_true in Hk. rewrite Hk.
  unfold load_name, try_except, mbind, M_bind, lift_result, subscript_key, subscript_first,
    strip_method, list_getitem, raise, mret, M_ret.
  rewrite Hcreate. simpl. rewrite Hchoices. simpl. rewrite Hmessage. simpl.
  by rewrite Hcontent.
Qed.

Lemma summarize_text_reads_first_choice_witness :
  (exists k, Some "sk-test" = Some k /\ k <> "") /\
  summarize_text (Some "sk-test") (Some sample_create) "Chapter one" first_visit
  = (first_visit, inr "A short summary.").
Proof.
  split; [by exists "sk-test"|].
  apply (summarize_text_reads_first_choice (Some "sk-test") sample_create
           "Chapter one" first_visit
           (list_to_map
              [("choices",
                PyList [PyDict (list_to_map
                          [("message",
                            PyDict (list_to_map
                              [("role", PyStr "assistant");
                               ("content", PyStr "  A short summary. ")]))])])])
           (list_to_map
                 [("message",
                   PyDict (list_to_map
                     [("role", PyStr "assistant");
                      ("content", PyStr "  A short summary. ")]))])
           [] (list_to_map
                 [("role", PyStr "assistant");
                  ("content", PyStr "  A short summary. ")])
           "  A short summary. ");
    [by exists "sk-test"|reflexivity..].
Defined.

(** * The relay: receiving, echo, publishing *)

Section relay.
Context `{PyLib}.
Variable pdf_pages : list string.

Lemma chat_event_type t user chat_message :
  dict_get (chat_event t user chat_message) "type" = PyStr "chat".
Proof. unfold dict_get, chat_event. simpl. by rewrite lookup_insert_eq. Qed.

(** What the callback does to the world, case by case. *)
Lemma on_message_cases message w :
  (exists n, on_message message w = (noticed n w, inr ())) \/
  (exists d, on_message message w
             = (with_session (set_collab_chat (remote_chat w ++ [d]) (session w)) w,
                inl RerunRequested)) \/
  (exists d, on_message message w
             = (with_session
                  (set_collab_annotations (remote_annotations w ++ [d]) (session w)) w,
                inl RerunRequested)) \/
  on_message message w = (w, inl RerunRequested).
Proof.
  destruct (json_loads message) as [e|v] eqn:Hloads.
  { left. eexists. by apply on_message_malformed. }
  destruct v as [| | | | | |d];
    try (left; eexists; apply (on_message_not_dict _ _ _ Hloads); by intros d).
  destruct (py_eq_str (dict_get d "type") "annotation") eqn:Ha.
  { apply py_eq_str_true in Ha. right. right. left. exists d.
    by apply on_message_annotation. }
  destruct (py_eq_str (dict_get d "type") "chat") eqn:Hc.
  { apply py_eq_str_true in Hc. right. left. exists d. by apply on_message_chat. }
  apply py_eq_str_false in Ha, Hc. right. right. right.
  apply (on_message_other_dict _ _ _ Hloads Ha Hc).
Qed.

Lemma step_remote_logs a w :
  remote_chat w `prefix_of` remote_chat (step pdf_pages a w) /\
  remote_annotations w `prefix_of` remote_annotations (step pdf_pages a w).
Proof.
  unfold remote_chat at 2, remote_annotations at 2.
  destruct a as [| |st at_ r|m r|m].
  - by rewrite step_previous.
  - by rewrite step_next.
  - destruct (valid_annotation_input st at_) eqn:Hv.
    + by rewrite step_save_valid.
    + by rewrite step_save_invalid.
  - unfold step. destruct (str_bool (strip m)) eqn:Hm.
    + rewrite step_send_sent by done. simpl. split; [by apply prefix_app_r|done].
    + by rewrite step_send_blank.
  - unfold step, handle.
    destruct (on_message_cases m w) as [[n ->] | [[d ->] | [[d ->] | ->]]]; simpl;
      split; try done; by apply prefix_app_r.
Qed.

Lemma handle_save_valid selected_text annotation_text relay w :
  valid_annotation_input selected_text annotation_text = true ->
  let payload := json_dumps (PyDict (saved_event w selected_text annotation_text)) in
  wire (step pdf_pages (Save_annotation selected_text annotation_text relay) w)
  = wire w ++ relay_calls relay payload /\
  screen (step pdf_pages (Save_annotation selected_text annotation_text relay) w)
  = screen w ++ St_success "Annotation saved locally!" ::
      match relay_failure relay payload with
      | Some e =>
          [St_error ("Failed to send annotation to collaboration server: "
                     +:+ exn_str e)]
      | None => []
      end.
Proof.
  intros Hvalid. unfold step, handle. rewrite init_blocks_run.
  erewrite save_annotation_saved; [|done|reflexivity..]. by simpl.
Qed.

(** X16. A relay message that decodes to an object whose type is
    annotation is appended, as it is, to the remote annotation log; the chat
    log, the local annotations and the revision history stay as they are. *)
Theorem on_message_annotation_appended message d w :
  json_loads message = inr (PyDict d) ->
  dict_get d "type" = PyStr "annotation" ->
  let w' := fst (on_message message w) in
  remote_annotations w' = remote_annotations w ++ [d] /\
  collab_chat (session w') = collab_chat (session w) /\
  annotations (session w') = annotations (session w) /\
  revision_history (session w') = revision_history (session w).
Proof.
  intros Hloads Htype. cbv zeta.
  by rewrite (on_message_annotation _ _ _ Hloads Htype).
Qed.

(** X17. Whatever the relay delivers, the callback leaves the local
    annotations, the revision history, the page index and the user name as
    they are, makes no call on the relay and does not read the clock. *)
Theorem on_message_keeps_local_state message w :
  let w' := fst (on_message message w) in
  annotations (session w') = annotations (session w) /\
  revision_history (session w') = revision_history (session w) /\
  current_page (session w') = current_page (session w) /\
  username (session w') = username (session w) /\
  wire w' = wire w /\
  ticks w' = ticks w.
Proof.
  cbv zeta.
  by destruct (on_message_cases message w) as [[n ->] | [[d ->] | [[d ->] | ->]]].
Qed.

(** X18. The two remote logs only grow at their end: after any sequence of
    actions, what the chat log and the remote annotation log held before is
    still there, in the same order, at the start of the log. *)
Theorem remote_logs_append_only acts w :
  remote_chat w `prefix_of` remote_chat (run pdf_pages acts w) /\
  remote_annotations w `prefix_of` remote_annotations (run pdf_pages acts w).
Proof.
  revert w. induction acts as [|a acts IH]; intros w; simpl; [done|].
  destruct (step_remote_logs a w) as [Hchat Hann].
  destruct (IH (step pdf_pages a w)) as [IHchat IHann].
  split; by etrans.
Qed.

(** X19. No message is recognised as the session's own: when the relay
    sends back the payload of a chat message this session has just sent (and
    decoding undoes the encoding), the chat log holds the event twice. *)
Theorem chat_echo_appears_twice chat_message relay w :
  strip chat_message <> "" ->
  let event := chat_event (clock w (ticks w)) (user_of w) chat_message in
  json_loads (json_dumps (PyDict event)) = inr (PyDict event) ->
  remote_chat
    (run pdf_pages
       [Send_message chat_message relay; Relay_message (json_dumps (PyDict event))] w)
  = remote_chat w ++ [event; event].
Proof.
  intros Htext event Hecho. simpl. apply str_bool_true in Htext.
  unfold step at 2. rewrite step_send_sent by done. simpl.
  unfold step, handle. fold event.
  rewrite (on_message_chat _ _ _ Hecho (chat_event_type _ _ _)). simpl.
  unfold remote_chat at 1 2. simpl. by rewrite <- app_assoc.
Qed.

(** X20. A chat message that passes validation is stored stripped of
    surrounding white space, under the session's user name: the stored text
    is not empty and stripping it again changes nothing. *)
Theorem sent_message_trimmed chat_message relay w :
  strip chat_message <> "" ->
  exists event,
    remote_chat (step pdf_pages (Send_message chat_message relay) w)
    = remote_chat w ++ [event] /\
    event !! "message" = Some (PyStr (strip chat_message)) /\
    strip (strip chat_message) = strip chat_message /\
    event !! "user" = Some (PyStr (user_of w)).
Proof.
  intros Htext. apply str_bool_true in Htext.
  exists (chat_event (clock w (ticks w)) (user_of w) chat_message).
  unfold step. rewrite step_send_sent by done. simpl.
  split_and!; [done| |apply strip_idempotent|].
  - unfold chat_event. simpl. by repeat (rewrite lookup_insert_ne by done).
  - unfold chat_event. simpl. by repeat (rewrite lookup_insert_ne by done).
Qed.

(** X21. A valid Save Annotation click sends to the relay the very event it
    stored: every payload handed to send is the serialised stored event, the
    send is attempted exactly when the connection was made, and the
    annotation is stored whatever the relay does. *)
Theorem annotation_published_as_stored selected_text annotation_text relay w :
  valid_annotation_input selected_text annotation_text = true ->
  let w' := step pdf_pages (Save_annotation selected_text annotation_text relay) w in
  let stored := saved_event w selected_text annotation_text in
  let calls := drop (length (wire w)) (wire w') in
  last (annotations_at w' (page_of w)) = Some stored /\
  (forall payload raised,
     Wire (Ws_send payload) raised ∈ calls ->
     payload = json_dumps (PyDict stored) /\ connect_raises relay = None) /\
  (connect_raises relay = None ->
   exists raised, Wire (Ws_send (json_dumps (PyDict stored))) raised ∈ calls).
Proof.
  intros Hvalid. cbv zeta.
  destruct (handle_save_valid selected_text annotation_text relay w Hvalid)
    as [-> _].
  rewrite drop_app_length, step_annotations_at. simpl.
  rewrite Hvalid, bool_decide_true by done. simpl. rewrite last_snoc.
  unfold relay_calls. split_and!; [done|..].
  - intros payload raised.
    destruct (connect_raises relay);
      [|destruct (send_raises relay _)];
      rewrite ?elem_of_cons, elem_of_nil; intros Hin;
      repeat destruct Hin as [Hin|Hin];
      try discriminate Hin; try done; by injection Hin as -> _.
  - intros ->. destruct (send_raises relay _) as [e|];
      [exists (Some e)|exists None];
      rewrite !elem_of_cons; right; by left.
Qed.

End relay.

Lemma on_message_annotation_appended_witness :
  json_loads (PyLib := echo_lib) "alice annotates" = inr (PyDict sample_annotation_event) /\
  dict_get sample_annotation_event "type" = PyStr "annotation" /\
  remote_annotations (fst (on_message (H := echo_lib) "alice annotates" first_visit))
  = [sample_annotation_event].
Proof.
  split; [reflexivity|]. split; [reflexivity|].
  apply (on_message_annotation_appended (H := echo_lib)
           "alice annotates" sample_annotation_event first_visit);
    reflexivity.
Defined.

Lemma chat_echo_appears_twice_witness :
  strip "hello" <> "" /\
  json_loads (PyLib := echo_lib)
    (json_dumps (PyLib := echo_lib)
       (PyDict (chat_event 1700000000.25%float "bob" "hello")))
  = inr (PyDict (chat_event 1700000000.25%float "bob" "hello")) /\
  remote_chat
    (run (H := echo_lib) two_pages
       [Send_message "hello" working_relay; Relay_message "bob says hello"] bob_visit)
  = [chat_event 1700000000.25%float "bob" "hello";
     chat_event 1700000000.25%float "bob" "hello"].
Proof.
  split; [discriminate|]. split; [reflexivity|].
  apply (chat_echo_appears_twice (H := echo_lib) two_pages
           "hello" working_relay bob_visit);
    [discriminate|reflexivity].
Defined.

Lemma sent_message_trimmed_witness :
  strip "  hello " <> "" /\
  exists event,
    remote_chat (step (H := sample_lib) two_pages
                   (Send_message "  hello " refusing_relay) bob_visit)
    = remote_chat bob_visit ++ [event] /\
    event !! "message" = Some (PyStr (strip "  hello ")) /\
    strip (strip "  hello ") = strip "  hello " /\
    event !! "user" = Some (PyStr (user_of bob_visit)).
Proof.
  split; [discriminate|].
  apply (sent_message_trimmed (H := sample_lib) two_pages
           "  hello " refusing_relay bob_visit).
  discriminate.
Defined.

Lemma annotation_published_as_stored_witness :
  valid_annotation_input "Hello" "a greeting" = true /\
  last (annotations_at
          (step (H := sample_lib) two_pages
             (Save_annotation "Hello" "a greeting" refusing_relay) first_visit)
          (page_of first_visit))
  = Some (saved_event (H := sample_lib) first_visit "Hello" "a greeting").
Proof.
  split; [reflexivity|].
  apply (annotation_published_as_stored (H := sample_lib) two_pages
           "Hello" "a greeting" refusing_relay first_visit).
  reflexivity.
Defined.

(** * More on the keyword search *)

Section spans.
Context `{CaseRule}.

Lemma match_here_length p lits subject :
  re.match_here p lits subject = true -> length lits <= length subject.
Proof.
  revert subject. induction lits as [|pc lits IH]; intros [|c subject]; simpl;
    try done; [lia|].
  intros [_ Hrest]%andb_prop. apply IH in Hrest. lia.
Qed.

(** Every span the scan reports starts at or after the position the scan is
    at (past the characters still to skip), has the length of the pattern,
    and the pattern matches there. *)
Lemma scan_spans p subject pos skip span :
  span ∈ re.scan p subject pos skip ->
  pos + skip <= fst span /\
  snd span = fst span + length (re.literals p) /\
  re.match_here p (re.literals p) (drop (fst span - pos) subject) = true.
Proof.
  revert pos skip. induction subject as [|c subject IH]; intros pos skip; simpl.
  { by intros ?%elem_of_nil. }
  destruct skip as [|k].
  - destruct (re.match_here p (re.literals p) (c :: subject)) eqn:Hm.
    + rewrite elem_of_cons. intros [->|Hin]; simpl.
      * rewrite Nat.sub_diag. simpl. split_and!; [lia|done|done].
      * apply IH in Hin as (Hpos & Hlen & Hmatch). split_and!; [lia|done|].
        replace (fst span - pos) with (S (fst span - S pos)) by lia. done.
    + intros Hin. apply IH in Hin as (Hpos & Hlen & Hmatch). split_and!; [lia|done|].
      replace (fst span - pos) with (S (fst span - S pos)) by lia. done.
  - intros Hin. apply IH in Hin as (Hpos & Hlen & Hmatch). split_and!; [lia|done|].
    replace (fst span - pos) with (S (fst span - S pos)) by lia. done.
Qed.

Lemma scan_sorted p subject pos skip :
  StronglySorted span_before (re.scan p subject pos skip).
Proof.
  revert pos skip. induction subject as [|c subject IH]; intros pos skip; simpl.
  { constructor. }
  destruct skip as [|k]; [|apply IH].
  destruct (re.match_here p (re.literals p) (c :: subject)); [|apply IH].
  constructor; [apply IH|].
  apply Forall_forall. intros span Hin.
  apply scan_spans in Hin as (Hpos & _). unfold span_before. simpl. lia.
Qed.

Lemma scan_nil p subject pos :
  re.literals p <> [] ->
  re.scan p subject pos 0 = []
  <-> forall i, re.match_here p (re.literals p) (drop i subject) = false.
Proof.
  intros Hlits. revert pos. induction subject as [|c subject IH]; intros pos; simpl.
  - split; [|done]. intros _ i. rewrite drop_nil.
    destruct (re.literals p); [done|reflexivity].
  - destruct (re.match_here p (re.literals p) (c :: subject)) eqn:Hm.
    + split; [done|]. intros Hall. specialize (Hall 0). simpl in Hall. congruence.
    + rewrite IH. split.
      * intros Hall [|i]; [done|apply Hall].
      * intros Hall i. apply (Hall (S i)).
Qed.

(** The scan passes over no place where the pattern matches: such a place
    starts a reported span or lies inside one. *)
Lemma scan_covers p subject pos skip i :
  re.literals p <> [] ->
  skip <= i ->
  re.match_here p (re.literals p) (drop i subject) = true ->
  exists span, span ∈ re.scan p subject pos skip /\ fst span <= pos + i < snd span.
Proof.
  intros Hlits. revert pos skip i.
  induction subject as [|c subject IH]; intros pos skip i Hskip Hm.
  { rewrite drop_nil in Hm. destruct (re.literals p); [done|discriminate Hm]. }
  assert (1 <= length (re.literals p)) as Hlen
    by (destruct (re.literals p); [done|simpl; lia]).
  simpl. destruct skip as [|k].
  - destruct (re.match_here p (re.literals p) (c :: subject)) eqn:Hhere.
    + destruct (decide (i < length (re.literals p))) as [Hin|Hout].
      * exists (pos, pos + length (re.literals p)). split; [left|simpl; lia].
      * destruct i as [|i]; [lia|].
        destruct (IH (S pos) (length (re.literals p) - 1) i) as (span & Hspan & Hi);
          [lia|done|].
        exists span. split; [by right|lia].
    + destruct i as [|i]; [simpl in Hm; congruence|].
      destruct (IH (S pos) 0 i) as (span & Hspan & Hi); [lia|done|].
      exists span. split; [done|lia].
  - destruct i as [|i]; [lia|].
    destruct (IH (S pos) k i) as (span & Hspan & Hi); [lia|done|].
    exists span. split; [done|lia].
Qed.

Lemma not_blank_not_empty term : str.strip term <> [] -> term <> [].
Proof. by intros Hterm ->. Qed.

Lemma occurs_at_match term text i :
  occurs_at term text i
  <-> re.match_here (re.Pattern term true) term (drop i text) = true.
Proof. unfold occurs_at. by rewrite match_here_same_letters. Qed.

Lemma finditer_nil term text :
  term <> [] ->
  re.finditer (re.Pattern term true) text = []
  <-> forall i, ~ occurs_at term text i.
Proof.
  intros Hterm. unfold re.finditer. cbn [re.literals].
  destruct term as [|c l] eqn:Hchars; [done|]. rewrite <- Hchars.
  rewrite scan_nil by (simpl; by rewrite Hchars). simpl.
  split; intros Hall i.
  - rewrite occurs_at_match, Hall. done.
  - specialize (Hall i). rewrite occurs_at_match in Hall.
    by destruct (re.match_here _ _ _).
Qed.

Lemma collect_matches_nil term pdf_pages page_num :
  collect_matches (re.Pattern term true) pdf_pages page_num = []
  <-> forall text, text ∈ pdf_pages ->
        re.finditer (re.Pattern term true) text = [].
Proof.
  revert page_num. induction pdf_pages as [|text rest IH]; intros k; simpl.
  - split; [|done]. by intros _ text ?%elem_of_nil.
  - split.
    + intros [Hhere Hrest]%app_eq_nil text' [->|Hin]%elem_of_cons.
      * by apply fmap_nil_inv in Hhere.
      * by apply (IH (S k)).
    + intros Hall. rewrite (Hall text) by apply list_elem_of_here. simpl.
      apply IH. intros text' Hin. apply Hall. by apply list_elem_of_further.
Qed.

Lemma finditer_spans term text span :
  term <> [] ->
  span ∈ re.finditer (re.Pattern term true) text ->
  snd span = fst span + length term /\
  snd span <= length text /\
  occurs_at term text (fst span).
Proof.
  intros Hterm. unfold re.finditer. cbn [re.literals].
  destruct term as [|c l] eqn:Hchars; [done|]. rewrite <- Hchars.
  intros (Hpos & Hlen & Hmatch)%scan_spans. simpl in Hlen, Hmatch.
  rewrite Nat.sub_0_r in Hmatch. split_and!; [done| |].
  - apply match_here_length in Hmatch. rewrite length_drop in Hmatch.
    assert (1 <= length term) by (rewrite Hchars; simpl; lia). lia.
  - by apply occurs_at_match.
Qed.

Lemma finditer_covers term text i :
  term <> [] ->
  occurs_at term text i ->
  exists span, span ∈ re.finditer (re.Pattern term true) text /\ fst span <= i < snd span.
Proof.
  intros Hterm Hocc%occurs_at_match. unfold re.finditer. cbn [re.literals].
  destruct term as [|c l] eqn:Hchars; [done|]. rewrite <- Hchars in *.
  destruct (scan_covers (re.Pattern term true) text 0 0 i) as (span & Hspan & Hi);
    [simpl; by rewrite Hchars|lia|done|].
  exists span. split; [done|lia].
Qed.

(** The pattern of line 415 for a term. *)
Lemma compiled_term term p :
  re.compile (re.escape term) true = inr p -> p = re.Pattern term true.
Proof. rewrite compile_escape. congruence. Qed.

End spans.

(** X22. Every span the search finds on a page is a real occurrence of the
    term: it lies within the page, is as long as the term, and the text there
    is the term, character by character and letter case aside, as the engine
    compares characters. *)
Theorem search_spans_are_occurrences `{CaseRule} term p text span :
  term <> [] ->
  re.compile (re.escape term) true = inr p ->
  span ∈ re.finditer p text ->
  snd span = fst span + length term /\
  snd span <= length text /\
  occurs_at term text (fst span).
Proof. intros Hterm ->%compiled_term. by apply finditer_spans. Qed.

Lemma search_spans_are_occurrences_witness :
  codes "He" <> [] /\
  re.compile (re.escape (codes "He")) true = inr (re.Pattern (codes "He") true) /\
  (2, 4) ∈ re.finditer (H := sample_case) (re.Pattern (codes "He") true)
             (codes "ECHE hello") /\
  occurs_at (H := sample_case) (codes "He") (codes "ECHE hello") 2.
Proof.
  split; [discriminate|]. split; [reflexivity|]. split; [vm_compute; left|].
  apply (search_spans_are_occurrences (H := sample_case) (codes "He")
           (re.Pattern (codes "He") true) (codes "ECHE hello") (2, 4));
    [discriminate|reflexivity|vm_compute; left].
Defined.

(** X23. The spans found on a page come in order and do not overlap: each
    one ends at or before the start of the next. *)
Theorem search_spans_do_not_overlap `{CaseRule} p text :
  StronglySorted span_before (re.finditer p text).
Proof.
  unfold re.finditer. destruct (re.literals p); [|apply scan_sorted].
  generalize 0. induction (S (length text)) as [|n IH]; intros start; simpl.
  - constructor.
  - constructor; [apply IH|].
    apply Forall_forall. intros span (i & -> & Hi%elem_of_seq)%list_elem_of_fmap.
    unfold span_before. simpl. lia.
Qed.

(** X24. For a term that is not blank, the tab shows the warning
    No matches found exactly when the term occurs nowhere in any page,
    letter case aside. *)
Theorem no_matches_iff_term_absent `{CaseRule} term pdf_pages w :
  str.strip term <> [] ->
  screen (fst (search_tab term pdf_pages w))
  = screen w ++ [St_warning "No matches found in the document."]
  <-> forall text i, text ∈ pdf_pages -> ~ occurs_at term text i.
Proof.
  intros Hterm. apply not_blank_not_empty in Hterm as Hne.
  apply str_nonempty_true in Hterm. rewrite search_tab_run by done. simpl.
  split.
  - intros Hscreen%app_inv_head text i Hin.
    destruct (collect_matches _ pdf_pages 0) as [|entry rest] eqn:Hms;
      [|discriminate Hscreen].
    apply (finditer_nil term text Hne).
    by apply (proj1 (collect_matches_nil term pdf_pages 0) Hms).
  - intros Habsent.
    assert (collect_matches (re.Pattern term true) pdf_pages 0 = []) as ->;
      [|done].
    apply collect_matches_nil. intros text Hin.
    apply (finditer_nil term text Hne). intros i. by apply Habsent.
Qed.

Lemma no_matches_iff_term_absent_witness :
  str.strip (codes "zebra") <> [] /\
  (screen (fst (search_tab (H := sample_case) (codes "zebra") two_texts first_visit))
   = screen first_visit ++ [St_warning "No matches found in the document."]
   <-> forall text i, text ∈ two_texts ->
         ~ occurs_at (H := sample_case) (codes "zebra") text i).
Proof.
  split; [discriminate|].
  apply (no_matches_iff_term_absent (H := sample_case) (codes "zebra") two_texts
           first_visit).
  discriminate.
Defined.

(** X31. The search passes over no occurrence: wherever the term occurs on a
    page, letter case aside, a match found on that page starts there or
    covers the place. (The scan resumes at the end of each match, so an
    occurrence that begins inside a match is not reported on its own.) *)
Theorem search_passes_over_no_occurrence `{CaseRule} term p text i :
  term <> [] ->
  re.compile (re.escape term) true = inr p ->
  occurs_at term text i ->
  exists span, span ∈ re.finditer p text /\ fst span <= i < snd span.
Proof. intros Hterm ->%compiled_term. by apply finditer_covers. Qed.

Lemma search_passes_over_no_occurrence_witness :
  codes "aa" <> [] /\
  occurs_at (H := sample_case) (codes "aa") (codes "baAa") 2 /\
  exists span,
    span ∈ re.finditer (H := sample_case) (re.Pattern (codes "aa") true) (codes "baAa")
    /\ fst span <= 2 < snd span.
Proof.
  split; [discriminate|].
  assert (occurs_at (H := sample_case) (codes "aa") (codes "baAa") 2) as Hocc.
  { apply (bool_decide_unpack _). vm_compute. exact I. }
  split; [exact Hocc|].
  apply (search_passes_over_no_occurrence (H := sample_case) (codes "aa")
           (re.Pattern (codes "aa") true) (codes "baAa") 2);
    [discriminate|reflexivity|exact Hocc].
Defined.

(** * Annotation ids and pages *)

Section ids.
Context `{PyLib}.

Lemma string_of_uint_plain d : no_underscore (NilEmpty.string_of_uint d).
Proof. unfold no_underscore. induction d; simpl; constructor; done. Qed.

Lemma str_int_plain z : no_underscore (str_int z).
Proof.
  unfold str_int. destruct (Z.to_int z) as [d|d]; simpl.
  - destruct d; try apply string_of_uint_plain. by repeat constructor.
  - constructor; [done|].
    destruct d; try apply string_of_uint_plain. by repeat constructor.
Qed.

Lemma to_int_proper z : Z.to_int z <> Decimal.Pos Decimal.Nil /\
                        Z.to_int z <> Decimal.Neg Decimal.Nil.
Proof.
  destruct z as [|p|p]; simpl; split; try done;
    intros [= Hnil]; by apply DecimalPos.Unsigned.to_uint_nonnil in Hnil.
Qed.

(** [str] of an int tells the int. *)
Lemma str_int_inj z1 z2 : str_int z1 = str_int z2 -> z1 = z2.
Proof.
  unfold str_int. intros Hstr. apply DecimalZ.to_int_inj.
  destruct (to_int_proper z1) as [Hp1 Hn1], (to_int_proper z2) as [Hp2 Hn2].
  pose proof (NilZero.isi _ Hp1 Hn1) as H1.
  pose proof (NilZero.isi _ Hp2 Hn2) as H2.
  rewrite Hstr in H1. rewrite H1 in H2. by injection H2.
Qed.

(** Two texts that agree up to their first underscore, and after it. *)
Lemma split_at_underscore s1 s2 r1 r2 :
  no_underscore s1 -> no_underscore s2 ->
  s1 +:+ String "_" r1 = s2 +:+ String "_" r2 -> s1 = s2 /\ r1 = r2.
Proof.
  unfold no_underscore.
  revert s2. induction s1 as [|c1 s1 IH]; intros [|c2 s2] Hs1 Hs2; simpl.
  - by intros [= ->].
  - intros [= <- _]. by inversion Hs2.
  - intros [= -> _]. by inversion Hs1.
  - intros [= -> Hrest].
    inversion Hs1; inversion Hs2; subst.
    destruct (IH s2) as [-> ->]; done.
Qed.

End ids.

(** X26. The id of an annotation tells its page: two annotation ids are
    equal only if they were built for the same page index and from clock
    readings that are written the same. Ids can collide only among the
    annotations of one page. *)
Theorem annotation_id_tells_page `{PyLib} page1 page2 t1 t2 :
  annotation_id page1 t1 = annotation_id page2 t2 ->
  page1 = page2 /\ str_float t1 = str_float t2.
Proof.
  unfold annotation_id. simpl. intros Hid.
  destruct (split_at_underscore _ _ _ _ (str_int_plain page1) (str_int_plain page2) Hid)
    as [Hpage Htime].
  split; [by apply str_int_inj|done].
Qed.

Lemma annotation_id_tells_page_witness :
  annotation_id (H := sample_lib) 0 (running_clock 0)
  = annotation_id (H := sample_lib) 0 (stopped_clock 7) /\
  0%Z = 0%Z.
Proof.
  split; [reflexivity|].
  apply (annotation_id_tells_page (H := sample_lib) 0 0
           (running_clock 0) (stopped_clock 7)).
  reflexivity.
Defined.

(** * Highlights and reported pages *)

Section highlights.
Context `{CaseRule}.

Lemma tagged_copy before after l shown plain :
  tagged before after shown plain ->
  tagged before after (l ++ shown) (l ++ plain).
Proof. intros Ht. induction l; simpl; [done|]. by constructor. Qed.

Lemma literals_length p : re.literals p <> [] -> exists n, length (re.literals p) = S n.
Proof. destruct (re.literals p); [done|eauto]. Qed.

Lemma wrap_scan_tagged p before after subject skip :
  re.literals p <> [] ->
  tagged before after (re.wrap_scan p before after subject skip) (drop skip subject).
Proof.
  intros Hlits. revert skip.
  induction subject as [|c subject IH]; intros skip; simpl.
  { rewrite drop_nil. constructor. }
  destruct skip as [|k]; [|apply IH].
  destruct (re.match_here p (re.literals p) (c :: subject)) eqn:Hm.
  - apply tagged_before.
    rewrite <- (take_drop (length (re.literals p)) (c :: subject)) at 2.
    apply tagged_copy, tagged_after.
    destruct (literals_length p Hlits) as [n Hn].
    rewrite Hn. replace (S n - 1) with n by lia. simpl. apply IH.
  - simpl. constructor. apply (IH 0).
Qed.

Lemma empty_pattern_tagged before after subject :
  tagged before after
    (flat_map (fun c => before ++ after ++ [c]) subject ++ before ++ after)
    subject.
Proof.
  induction subject as [|c subject IH]; simpl.
  - rewrite <- (app_nil_r after) at 2. apply tagged_before, tagged_after. constructor.
  - rewrite <- !app_assoc. apply tagged_before, tagged_after. simpl.
    by constructor.
Qed.

Lemma sub_wrap_tagged p before after subject :
  tagged before after (re.sub_wrap p before after subject) subject.
Proof.
  unfold re.sub_wrap. destruct (re.literals p) as [|pc lits] eqn:Hlits.
  - apply empty_pattern_tagged.
  - apply (wrap_scan_tagged p _ _ _ 0). by rewrite Hlits.
Qed.

(** Wrapping spans that all begin after the first character copies that
    character. *)
Lemma wrap_spans_cons before after c rest pos spans :
  (forall span, span ∈ spans -> S pos <= fst span <= snd span) ->
  wrap_spans before after (c :: rest) pos spans
  = c :: wrap_spans before after rest (S pos) spans.
Proof.
  intros Hspans. destruct spans as [|span spans]; [done|].
  destruct (Hspans span) as [Hfst Hsnd]; [left|]. simpl.
  replace (fst span - pos) with (S (fst span - S pos)) by lia.
  replace (snd span - pos) with (S (snd span - S pos)) by lia.
  done.
Qed.

(** The replacement scan wraps exactly the spans the matching scan finds. *)
Lemma wrap_scan_spans p before after subject pos skip :
  re.literals p <> [] ->
  re.wrap_scan p before after subject skip
  = wrap_spans before after (drop skip subject) (pos + skip)
      (re.scan p subject pos skip).
Proof.
  intros Hlits. destruct (literals_length p Hlits) as [n Hn].
  revert pos skip. induction subject as [|c subject IH]; intros pos skip.
  { simpl. by rewrite drop_nil. }
  simpl. destruct skip as [|k].
  - destruct (re.match_here p (re.literals p) (c :: subject)) eqn:Hm.
    + simpl. rewrite Nat.add_0_r, Nat.sub_diag. simpl.
      replace (pos + length (re.literals p) - pos) with (length (re.literals p))
        by lia.
      rewrite (IH (S pos) (length (re.literals p) - 1)).
      rewrite Hn. simpl. rewrite Nat.sub_0_r.
      by replace (S (pos + n)) with (pos + S n) by lia.
    + rewrite (IH (S pos) 0). simpl. rewrite !Nat.add_0_r.
      symmetry. apply wrap_spans_cons.
      intros span (Hpos & Hlen & _)%scan_spans. lia.
  - rewrite (IH (S pos) k). simpl.
    by replace (S (pos + k)) with (pos + S k) by lia.
Qed.

Lemma sub_wrap_spans p before after subject :
  re.literals p <> [] ->
  re.sub_wrap p before after subject
  = wrap_spans before after subject 0 (re.finditer p subject).
Proof.
  intros Hlits. unfold re.sub_wrap, re.finditer.
  destruct (re.literals p) as [|pc lits] eqn:Hp; [done|].
  rewrite (wrap_scan_spans p before after subject 0 0) by (by rewrite Hp).
  done.
Qed.

(** Matching looks at no more characters than the pattern has. *)
Lemma match_here_take p lits subject n :
  length lits <= n ->
  re.match_here p lits (take n subject) = re.match_here p lits subject.
Proof.
  revert subject n. induction lits as [|pc lits IH]; intros [|c subject] [|n];
    simpl; try done; try lia.
  intros Hn. by rewrite IH by lia.
Qed.

(** The context of a match of the page holds a match of its own. *)
Lemma context_has_match p text span :
  re.literals p <> [] ->
  span ∈ re.finditer p text ->
  re.finditer p (context_of text span) <> [].
Proof.
  intros Hlits. unfold re.finditer.
  destruct (re.literals p) as [|pc lits] eqn:Hp; [done|]. rewrite <- Hp in *.
  intros (_ & Hlen & Hm)%scan_spans Hnone.
  rewrite Nat.sub_0_r in Hm.
  apply match_here_length in Hm as Hfits. rewrite length_drop in Hfits.
  pose proof (proj1 (scan_nil p (context_of text span) 0 Hlits) Hnone
                (fst span - (fst span - 100))) as Hhere.
  clear Hnone. rename Hhere into Hnone.
  unfold context_of in Hnone. rewrite skipn_firstn_comm, drop_drop in Hnone.
  replace (fst span - 100 + (fst span - (fst span - 100))) with (fst span)
    in Hnone by lia.
  rewrite match_here_take in Hnone by lia. congruence.
Qed.

Lemma slice_context text span :
  slice text (Z.max 0 (Z.of_nat (fst span) - 100))
    (Z.min (Z.of_nat (length text)) (Z.of_nat (snd span) + 100))
  = context_of text span.
Proof.
  unfold slice, context_of.
  replace (Z.to_nat (Z.max 0 (Z.of_nat (fst span) - 100))) with (fst span - 100)
    by lia.
  by replace (Z.to_nat (Z.min (Z.of_nat (length text)) (Z.of_nat (snd span) + 100)))
    with (Nat.min (length text) (snd span + 100)) by lia.
Qed.

Lemma collect_matches_entries p pdf_pages page_num entry :
  entry ∈ collect_matches p pdf_pages page_num ->
  exists j text span,
    pdf_pages !! j = Some text /\
    span ∈ re.finditer p text /\
    entry = match_entry p (page_num + j) text span.
Proof.
  revert page_num. induction pdf_pages as [|text rest IH]; intros k; simpl.
  { by intros ?%elem_of_nil. }
  rewrite elem_of_app. intros [(span & -> & Hspan)%list_elem_of_fmap|Hin].
  - exists 0, text, span. by rewrite Nat.add_0_r.
  - apply IH in Hin as (j & text' & span & Hlookup & Hspan & ->).
    exists (S j), text', span. by rewrite Nat.add_succ_r.
Qed.

End highlights.

(** X28. What the search shows for a match found on a page: the page number
    counted from 1, and the context of the match (the page text from at most
    100 characters before the match to at most 100 after its end) in which
    every match that the pattern finds in that stretch, and there is at
    least one, stands between the opening and the closing highlight tag,
    with the text between the matches copied; leaving out the tags gives the
    context back, character by character. *)
Theorem highlight_wraps_matches_of_context `{CaseRule} term p page_num text span :
  term <> [] ->
  re.compile (re.escape term) true = inr p ->
  span ∈ re.finditer p text ->
  let entry := match_entry p page_num text span in
  let context := context_of text span in
  fst entry = page_num + 1 /\
  re.finditer p context <> [] /\
  snd entry = wrap_spans span_open span_close context 0 (re.finditer p context) /\
  tagged span_open span_close (snd entry) context.
Proof.
  intros Hterm ->%compiled_term Hspan. cbv zeta. unfold match_entry.
  cbn [fst snd]. rewrite slice_context. split_and!.
  - done.
  - by apply context_has_match.
  - by apply sub_wrap_spans.
  - apply sub_wrap_tagged.
Qed.

Lemma highlight_wraps_matches_of_context_witness :
  codes "he" <> [] /\
  re.compile (re.escape (codes "he")) true = inr (re.Pattern (codes "he") true) /\
  (1, 3) ∈ re.finditer (H := sample_case) (re.Pattern (codes "he") true)
             (codes "the end. Help!") /\
  snd (match_entry (H := sample_case) (re.Pattern (codes "he") true) 1
         (codes "the end. Help!") (1, 3))
  = codes "t" ++ span_open ++ codes "he" ++ span_close ++ codes " end. "
    ++ span_open ++ codes "He" ++ span_close ++ codes "lp!".
Proof.
  split; [discriminate|]. split; [reflexivity|]. split; [vm_compute; left|].
  destruct (highlight_wraps_matches_of_context (H := sample_case) (codes "he")
              (re.Pattern (codes "he") true) 1 (codes "the end. Help!") (1, 3))
    as (_ & _ & -> & _); [discriminate|reflexivity|vm_compute; left|].
  reflexivity.
Defined.

(** X29. Every match the search reports is on a page that exists and
    contains the term: its page number is between 1 and the number of pages,
    and the term occurs, letter case aside, in the page with that number. *)
Theorem reported_match_is_on_its_page `{CaseRule} term p pdf_pages entry :
  term <> [] ->
  re.compile (re.escape term) true = inr p ->
  entry ∈ collect_matches p pdf_pages 0 ->
  1 <= fst entry <= length pdf_pages /\
  exists text i,
    pdf_pages !! (fst entry - 1) = Some text /\ occurs_at term text i.
Proof.
  intros Hterm ->%compiled_term
    (j & text & span & Hlookup & Hspan & ->)%collect_matches_entries.
  simpl. apply lookup_lt_Some in Hlookup as Hj. split; [lia|].
  exists text, (fst span). replace (j + 1 - 1) with j by lia. split; [done|].
  by apply (finditer_spans term text span Hterm).
Qed.

Lemma reported_match_is_on_its_page_witness :
  codes "he" <> [] /\
  (2, codes "t" ++ span_open ++ codes "he" ++ span_close ++ codes " end. "
      ++ span_open ++ codes "He" ++ span_close ++ codes "lp!")
  ∈ collect_matches (H := sample_case) (re.Pattern (codes "he") true) two_texts 0 /\
  1 <= 2 <= length two_texts.
Proof.
  split; [discriminate|]. split; [vm_compute; right; left|].
  apply (reported_match_is_on_its_page (H := sample_case) (codes "he")
           (re.Pattern (codes "he") true) two_texts
           (2, codes "t" ++ span_open ++ codes "he" ++ span_close ++ codes " end. "
               ++ span_open ++ codes "He" ++ span_close ++ codes "lp!"));
    [discriminate|reflexivity|vm_compute; right; left].
Defined.
